(** * A verification development for [snapshot.py] (directory-snapshot).

    Python [str] values are represented by their UTF-8 encoding as a Rocq
    [string].  Carriage return and line feed are single bytes in UTF-8 and
    never occur inside a multi-byte sequence, so replacing them byte-wise is
    the same as replacing them code-point-wise; byte-wise comparison of UTF-8
    strings is also Python's code-point order.  Paths follow [posixpath]
    ([os.sep = "/"]); module [Host] has the walk with [os.sep],
    [os.path.join] and [os.path.relpath] of any host. *)

From Stdlib Require Import Strings.String Strings.Ascii Lists.List Bool ZArith Lia.
From Stdlib Require Import Strings.Byte.
Import ListNotations.
Open Scope string_scope.
Open Scope list_scope.
Set Warnings "-register-all".

(* ------------------------------------------------------------------ *)
(** ** Python string primitives *)

Definition CR : ascii := "013"%char.
Definition LF : ascii := "010"%char.
Definition SLASH : ascii := "/"%char.

(** [s[n:]] *)
Fixpoint str_drop (n : nat) (s : string) : string :=
  match n, s with
  | O, _ => s
  | S _, EmptyString => EmptyString
  | S n', String _ s' => str_drop n' s'
  end.

(** [str.replace(old, new)] for a non-empty [old]: scan left to right and
    replace non-overlapping occurrences.  [fuel] bounds the scan; it is
    called with [length s], which is always enough. *)
Fixpoint replace_from (fuel : nat) (old new s : string) : string :=
  match fuel with
  | O => s
  | S f =>
      match s with
      | EmptyString => EmptyString
      | String c s' =>
          if prefix old s
          then new ++ replace_from f old new (str_drop (String.length old) s)
          else String c (replace_from f old new s')
      end
  end.

Definition py_replace (old new s : string) : string :=
  replace_from (String.length s) old new s.

(** [c in s] for a single character. *)
Fixpoint has_char (c : ascii) (s : string) : bool :=
  match s with
  | EmptyString => false
  | String c' s' => Ascii.eqb c c' || has_char c s'
  end.

(** [s.startswith(p)] for [p] a single character. *)
Definition starts_with (c : ascii) (s : string) : bool :=
  match s with
  | String c' _ => Ascii.eqb c c'
  | EmptyString => false
  end.

(** [s.endswith(p)] for [p] a single character. *)
Fixpoint ends_with (c : ascii) (s : string) : bool :=
  match s with
  | EmptyString => false
  | String c' EmptyString => Ascii.eqb c c'
  | String _ s' => ends_with c s'
  end.

(** [s.split(sep)] for a one-character separator. *)
Fixpoint split_on (c : ascii) (s : string) : list string :=
  match s with
  | EmptyString => [EmptyString]
  | String c' s' =>
      if Ascii.eqb c c' then EmptyString :: split_on c s'
      else match split_on c s' with
           | w :: ws => String c' w :: ws
           | [] => [String c' EmptyString]
           end
  end.

(* ------------------------------------------------------------------ *)
(** ** Content Normalizer: [normalize_content] (lines 16-18) *)

Definition normalize_content (content : string) : string :=
  py_replace (String CR EmptyString) (String LF EmptyString)
    (py_replace (String CR (String LF EmptyString)) (String LF EmptyString)
       content).

(** The spec's wording of the normalizer (section 4.3): every CRLF and every
    lone CR becomes LF, everything else is kept. *)
Fixpoint spec_normalize (s : string) : string :=
  match s with
  | EmptyString => EmptyString
  | String c s' =>
      if Ascii.eqb c CR then
        match s' with
        | String d s'' =>
            if Ascii.eqb d LF then String LF (spec_normalize s'')
            else String LF (spec_normalize s')
        | EmptyString => String LF EmptyString
        end
      else String c (spec_normalize s')
  end.


(* ------------------------------------------------------------------ *)
(** ** [posixpath]: [join], [normpath], [abspath], [relpath] *)

Definition is_empty (s : string) : bool :=
  match s with EmptyString => true | _ => false end.

(** [posixpath.join(a, b)] *)
Definition py_join (a b : string) : string :=
  if starts_with SLASH b then b
  else if is_empty a || ends_with SLASH a then a ++ b
  else a ++ String SLASH b.

(** [posixpath.join(a, *p)] *)
Definition py_join_many (a : string) (p : list string) : string :=
  fold_left py_join p a.

(** One iteration of the component loop of [posixpath.normpath];
    [new_comps] is kept reversed, so [new_comps[-1]] is its head. *)
Definition norm_step (initial_slashes : bool) (new_comps : list string)
    (comp : string) : list string :=
  if (comp =? "") || (comp =? ".") then new_comps
  else if negb (comp =? "..")
          || (negb initial_slashes && match new_comps with [] => true | _ => false end)
          || match new_comps with c :: _ => c =? ".." | [] => false end
  then comp :: new_comps
  else match new_comps with [] => [] | _ :: t => t end.

Definition norm_comps (initial_slashes : bool) (comps : list string) : list string :=
  rev (fold_left (norm_step initial_slashes) comps []).

(** [posixpath.normpath(path)] *)
Definition normpath (path : string) : string :=
  if is_empty path then "." else
  let initial_slashes : nat :=
    if prefix "//" path && negb (prefix "///" path) then 2
    else if starts_with SLASH path then 1 else 0 in
  let comps := norm_comps (negb (Nat.eqb initial_slashes 0)) (split_on SLASH path) in
  let p := String.concat "/" comps in
  let p := ((if Nat.eqb initial_slashes 2 then "//"
             else if Nat.eqb initial_slashes 1 then "/" else "") ++ p)%string in
  if is_empty p then "." else p.

(** Longest common prefix of two lists: [os.path.commonprefix([a, b])],
    which compares [min] and [max] of the two and so is their common
    prefix. *)
Fixpoint common_prefix (a b : list string) : list string :=
  match a, b with
  | x :: a', y :: b' => if x =? y then x :: common_prefix a' b' else []
  | _, _ => []
  end.

Definition dotdot : string := "..".

Section Paths.

(** The result of [os.getcwd()]. *)
Variable cwd : string.

(** [posixpath.abspath(path)] *)
Definition abspath (path : string) : string :=
  normpath (if starts_with SLASH path then path else py_join cwd path).

(** [posixpath.relpath(path, start)]; [None] is the [ValueError] raised
    for an empty [path]. *)
Definition relpath (path start : string) : option string :=
  if is_empty path then None else
  let start_list := filter (fun x => negb (is_empty x)) (split_on SLASH (abspath start)) in
  let path_list := filter (fun x => negb (is_empty x)) (split_on SLASH (abspath path)) in
  let i := List.length (common_prefix start_list path_list) in
  let rel_list := repeat dotdot (List.length start_list - i) ++ skipn i path_list in
  match rel_list with
  | [] => Some "."
  | r :: rs => Some (py_join_many r rs)
  end.

End Paths.

(* ------------------------------------------------------------------ *)
(** ** The file system seen by the program *)

(** What [open(path, 'rb')] followed by reads gives: the file's bytes, or
    the message of the [OSError] raised. *)
Inductive contents :=
| Readable (bytes : list byte)
| Unreadable (msg : string).

(** A regular file: its name, its contents, and [f_fault], an exception
    raised while [get_file_info] runs outside its guarded read (for instance
    a [MemoryError]); such failures are not determined by the rest of the
    state, so they are part of the input. *)
Record file_node := {
  f_name : string;
  f_data : contents;
  f_fault : option string
}.

(** A directory entry; [Dir] children are in [os.listdir] order. *)
Inductive entry :=
| File (f : file_node)
| Dir (name : string) (children : list entry).

Definition entry_name (e : entry) : string :=
  match e with File f => f_name f | Dir n _ => n end.

(** [f.read(n)]: a negative size reads to the end of the file. *)
Definition py_read (n : Z) (bs : list byte) : list byte :=
  if (n <? 0)%Z then bs else firstn (Z.to_nat n) bs.

(* ------------------------------------------------------------------ *)
(** ** Results of the program *)

(** Python exceptions propagate; [Exc] carries [str(e)]. *)
Inductive res (A : Type) :=
| Ok (a : A)
| Exc (msg : string).
Arguments Ok {A} a.
Arguments Exc {A} msg.

(** A file record: a dict with key ["path"] and optional keys ["content"]
    and ["error"]; [None] is an absent key. *)
Record file_info := {
  fi_path : string;
  fi_content : option string;
  fi_error : option string
}.

Record error_record := {
  er_path : string;
  er_error : string
}.

(** The snapshot dict: ["file_structure"] (optional), ["files"] and
    ["errors"] (optional). *)
Record snapshot := {
  file_structure : option string;
  files : list file_info;
  errors : option (list error_record)
}.

Definition output_name : string := "directory_snapshot.json".

Definition binary_marker : string := "<binary_content>".

(** Induction on directory trees, with a hypothesis for every child. *)
Section EntryInd.
Variable P : entry -> Prop.
Hypothesis HFile : forall f, P (File f).
Hypothesis HDir : forall n cs, Forall P cs -> P (Dir n cs).

Fixpoint entry_ind' (e : entry) : P e :=
  match e with
  | File f => HFile f
  | Dir n cs =>
      HDir n cs
        ((fix go (cs : list entry) : Forall P cs :=
            match cs with
            | [] => Forall_nil P
            | c :: cs' => Forall_cons c (entry_ind' c) (go cs')
            end) cs)
  end.
End EntryInd.

(* ------------------------------------------------------------------ *)
(** ** The program *)

Section Program.

(** [fnmatch.fnmatch(name, pattern)] (the standard library's glob matcher). *)
Variable fnmatch : string -> string -> bool.
(** [os.path.basename(__file__)]. *)
Variable script_name : string.
(** [bytes.decode('utf-8', errors='replace')], its result UTF-8 encoded. *)
Variable decode_utf8 : list byte -> string.
(** [os.getcwd()]. *)
Variable cwd : string.

(** [any(fnmatch.fnmatch(name, pattern) for pattern in ignore_patterns)] *)
Definition matches_any (ignore_patterns : list string) (name : string) : bool :=
  existsb (fun pattern => fnmatch name pattern) ignore_patterns.

(** [is_text_file] (lines 8-14): the file is opened anew and [sample_size]
    bytes are read; an [IOError] gives [False]. *)
Definition is_text_file (data : contents) (sample_size : Z) : bool :=
  match data with
  | Unreadable _ => false
  | Readable bs => negb (existsb (Byte.eqb x00) (py_read sample_size bs))
  end.

(** [get_file_info] (lines 20-37). *)
Definition get_file_info (file_path base_path : string) (f : file_node)
    (include_content : bool) (max_size : Z) : res file_info :=
  match f_fault f with
  | Some m => Exc m
  | None =>
  match relpath cwd file_path base_path with
  | None => Exc "no path specified"
  | Some rp =>
  let rel_path := py_replace "/" "/" rp in
  if include_content then
    match f_data f with
    | Unreadable m => Ok {| fi_path := rel_path; fi_content := None; fi_error := Some m |}
    | Readable bs =>
        let content := py_read max_size bs in
        if is_text_file (f_data f) 8192 then
          let decoded_content := decode_utf8 content in
          Ok {| fi_path := rel_path;
                fi_content := Some (normalize_content decoded_content);
                fi_error := None |}
        else
          Ok {| fi_path := rel_path; fi_content := Some binary_marker; fi_error := None |}
    end
  else Ok {| fi_path := rel_path; fi_content := None; fi_error := None |}
  end
  end.

(** [os.walk(top)] with the caller's [dirs[:] = ...] filter [keep]: the
    triples [(root, files)] in the order they are yielded.  A [top] that is
    not a directory yields nothing (the [scandir] error is ignored). *)
Fixpoint os_walk (keep : string -> bool) (top : string) (e : entry)
    : list (string * list file_node) :=
  match e with
  | File _ => []
  | Dir _ cs =>
      (top, flat_map (fun c => match c with File f => [f] | Dir _ _ => [] end) cs)
      :: (fix go (cs : list entry) :=
            match cs with
            | [] => []
            | File _ :: cs' => go cs'
            | (Dir n _ as d) :: cs' =>
                (if keep n then os_walk keep (py_join top n) d else []) ++ go cs'
            end) cs
  end.

(** The body of the inner loop of [generate_snapshot] (lines 79-98) for one
    file [f] found under [root]. *)
Definition process_file (input_dir : string) (ignore_patterns : list string)
    (include_content : bool) (max_size : Z) (root : string) (f : file_node)
    (snap : snapshot) : res snapshot :=
  let file := f_name f in
  if matches_any ignore_patterns file then Ok snap
  else if (file =? script_name) || (file =? output_name) then Ok snap
  else
    let file_path := py_join root file in
    match get_file_info file_path input_dir f include_content max_size with
    | Ok file_info =>
        Ok {| file_structure := file_structure snap;
              files := files snap ++ [file_info];
              errors := errors snap |}
    | Exc e =>
        match relpath cwd file_path input_dir with
        | None => Exc "no path specified"
        | Some rp =>
            let errs := match errors snap with Some l => l | None => [] end in
            Ok {| file_structure := file_structure snap;
                  files := files snap;
                  errors := Some (errs ++ [{| er_path := py_replace "/" "/" rp;
                                              er_error := e |}]) |}
        end
    end.

Fixpoint process_files (input_dir : string) (ignore_patterns : list string)
    (include_content : bool) (max_size : Z) (root : string)
    (fs : list file_node) (snap : snapshot) : res snapshot :=
  match fs with
  | [] => Ok snap
  | f :: fs' =>
      match process_file input_dir ignore_patterns include_content max_size root f snap with
      | Ok snap' => process_files input_dir ignore_patterns include_content max_size root fs' snap'
      | Exc m => Exc m
      end
  end.

Fixpoint process_walk (input_dir : string) (ignore_patterns : list string)
    (include_content : bool) (max_size : Z)
    (w : list (string * list file_node)) (snap : snapshot) : res snapshot :=
  match w with
  | [] => Ok snap
  | (root, fs) :: w' =>
      match process_files input_dir ignore_patterns include_content max_size root fs snap with
      | Ok snap' => process_walk input_dir ignore_patterns include_content max_size w' snap'
      | Exc m => Exc m
      end
  end.

(** [sorted(...)] on names (a stable insertion sort; byte order on UTF-8 is
    Python's code-point order). *)
Fixpoint insert_by_name (x : entry) (l : list entry) : list entry :=
  match l with
  | [] => [x]
  | y :: l' =>
      if String.leb (entry_name x) (entry_name y) then x :: l
      else y :: insert_by_name x l'
  end.

Definition sort_by_name (l : list entry) : list entry :=
  fold_right insert_by_name [] l.

(** The item filter of lines 52-54. *)
Definition retained (ignore_patterns : list string) (e : entry) : bool :=
  let item := entry_name e in
  negb (matches_any ignore_patterns item)
  && negb (item =? script_name) && negb (item =? output_name).

(** [items] of line 52 at every directory: the retained children in sorted
    order, each one listed in turn when [add_to_structure] reaches it. *)
Fixpoint listing (ignore_patterns : list string) (e : entry) : entry :=
  match e with
  | File f => File f
  | Dir n cs =>
      Dir n (sort_by_name (filter (retained ignore_patterns)
                             (map (listing ignore_patterns) cs)))
  end.

Definition connector (is_last : bool) : string :=
  if is_last then "└── " else "├── ".

(** [add_to_structure] (lines 45-59) on a listed tree; the lines it appends
    to [structure], in order. *)
Fixpoint add_to_structure (e : entry) (prefix : string) (is_last is_root : bool)
    : list string :=
  match e with
  | Dir name items =>
      (if is_root then [] else [(prefix ++ connector is_last ++ name ++ "/")%string])
      ++ let new_prefix :=
           if is_root then ""
           else (prefix ++ (if is_last then "    " else "│   "))%string in
         (fix go (items : list entry) :=
            match items with
            | [] => []
            | item :: rest =>
                add_to_structure item new_prefix
                  (match rest with [] => true | _ => false end) false
                ++ go rest
            end) items
  | File f =>
      if is_root then [] else [(prefix ++ connector is_last ++ f_name f)%string]
  end.

(** [generate_simple_file_structure] (lines 39-62); [top] is what
    [input_dir] names, [None] when it does not exist. *)
Definition generate_simple_file_structure (input_dir : string) (top : option entry)
    (ignore_patterns : list string) : string :=
  match top with
  | None => ""
  | Some e =>
      String.concat (String LF EmptyString)
        (add_to_structure (listing ignore_patterns e) "" false true)
  end.

(** [generate_snapshot] (lines 64-100). *)
Definition generate_snapshot (input_dir : string) (top : option entry)
    (ignore_patterns : list string) (include_content : bool) (max_size : Z)
    (include_structure : bool) : res snapshot :=
  let snap0 :=
    {| file_structure :=
         if include_structure
         then Some (generate_simple_file_structure input_dir top ignore_patterns)
         else None;
       files := [];
       errors := None |} in
  match top with
  | None => Ok snap0
  | Some e =>
      process_walk input_dir ignore_patterns include_content max_size
        (os_walk (fun d => negb (matches_any ignore_patterns d)) input_dir e) snap0
  end.

(** The parsed command line (lines 104-114). *)
Record args := {
  a_input : string;
  a_output : string;
  a_ignore : list string;
  a_max_size : Z;
  a_no_content : bool;
  a_structure_only : bool;
  a_no_structure : bool
}.

(** The snapshot [main] builds (line 122) when [--structure-only] is off. *)
Definition main_snapshot (a : args) (top : option entry) : res snapshot :=
  generate_snapshot (a_input a) top (a_ignore a) (negb (a_no_content a))
    (a_max_size a) (negb (a_no_structure a)).






End Program.

(* ------------------------------------------------------------------ *)
(** ** Concrete instances of the standard-library parameters, used to run
    the program on explicit inputs *)

Module Glob.

(** The pieces [fnmatch.translate] turns a pattern into: [*], [?], a
    bracket set (negated by a leading [!], with [a-z] ranges) and a
    literal character. *)
Inductive gtok :=
| GStar
| GAny
| GSet (neg : bool) (items : list (ascii * ascii))
| GChar (c : ascii).

Fixpoint set_items (l : list ascii) : list (ascii * ascii) :=
  match l with
  | a :: "-"%char :: b :: t => (a, b) :: set_items t
  | a :: t => (a, a) :: set_items t
  | [] => []
  end.

(** The characters up to the first [']'] and what follows it. *)
Fixpoint break_close (l : list ascii) : option (list ascii * list ascii) :=
  match l with
  | [] => None
  | "]"%char :: t => Some ([], t)
  | c :: t =>
      match break_close t with
      | Some (body, rest) => Some (c :: body, rest)
      | None => None
      end
  end.

(** After a ['[']: a leading [!], then a leading [']'] belong to the set. *)
Definition split_set (l : list ascii) : option (bool * list ascii * list ascii) :=
  let '(neg, l1) := match l with "!"%char :: t => (true, t) | _ => (false, l) end in
  let '(pre, l2) := match l1 with "]"%char :: t => (["]"%char], t) | _ => ([], l1) end in
  match break_close l2 with
  | Some (body, rest) => Some (neg, pre ++ body, rest)
  | None => None
  end.

Fixpoint tokenize (fuel : nat) (l : list ascii) : list gtok :=
  match fuel with
  | O => []
  | S f =>
      match l with
      | [] => []
      | "*"%char :: t => GStar :: tokenize f t
      | "?"%char :: t => GAny :: tokenize f t
      | "["%char :: t =>
          match split_set t with
          | Some (neg, body, rest) => GSet neg (set_items body) :: tokenize f rest
          | None => GChar "["%char :: tokenize f t
          end
      | c :: t => GChar c :: tokenize f t
      end
  end.

Definition in_items (c : ascii) (items : list (ascii * ascii)) : bool :=
  existsb (fun '(lo, hi) =>
             Nat.leb (nat_of_ascii lo) (nat_of_ascii c)
             && Nat.leb (nat_of_ascii c) (nat_of_ascii hi)) items.

Fixpoint gmatch (ts : list gtok) (s : list ascii) : bool :=
  match ts with
  | [] => match s with [] => true | _ => false end
  | GStar :: ts' =>
      (fix go (s : list ascii) :=
         gmatch ts' s || match s with [] => false | _ :: s' => go s' end) s
  | GAny :: ts' => match s with [] => false | _ :: s' => gmatch ts' s' end
  | GSet neg items :: ts' =>
      match s with
      | [] => false
      | c :: s' => Bool.eqb (in_items c items) (negb neg) && gmatch ts' s'
      end
  | GChar c :: ts' =>
      match s with
      | [] => false
      | c' :: s' => Ascii.eqb c c' && gmatch ts' s'
      end
  end.

(** [fnmatch.fnmatch(name, pattern)] on POSIX ([os.path.normcase] is the
    identity there). *)
Definition fnmatch (name pattern : string) : bool :=
  let p := list_ascii_of_string pattern in
  gmatch (tokenize (List.length p) p) (list_ascii_of_string name).

(** A UTF-8 decoder for the ASCII inputs used below: a byte below 0x80 is
    its character; any other byte becomes U+FFFD. *)
Definition ascii_decode (bs : list byte) : string :=
  string_of_list_ascii
    (flat_map (fun b =>
       let n := Byte.to_nat b in
       if Nat.ltb n 128 then [ascii_of_nat n]
       else [ascii_of_nat 239; ascii_of_nat 191; ascii_of_nat 189]) bs).

End Glob.

(* ------------------------------------------------------------------ *)
(** ** Structural forms of the two replacements in [normalize_content] *)

Module Normalize.

Fixpoint repl_crlf (s : string) : string :=
  match s with
  | EmptyString => EmptyString
  | String c s' =>
      if Ascii.eqb c CR then
        match s' with
        | String d s'' =>
            if Ascii.eqb d LF then String LF (repl_crlf s'')
            else String c (repl_crlf s')
        | EmptyString => String c EmptyString
        end
      else String c (repl_crlf s')
  end.

Fixpoint repl_cr (s : string) : string :=
  match s with
  | EmptyString => EmptyString
  | String c s' => String (if Ascii.eqb c CR then LF else c) (repl_cr s')
  end.

End Normalize.

(* ------------------------------------------------------------------ *)
(** ** Trees, positions in them, and edits used to state properties *)

(** [remove_at ns p e]: in every directory reached from [e] through
    subdirectories named [ns], delete the children satisfying [p] (with all
    their contents). *)
Fixpoint remove_at (ns : list string) (p : entry -> bool) (e : entry) : entry :=
  match e with
  | File f => File f
  | Dir n cs =>
      match ns with
      | [] => Dir n (filter (fun c => negb (p c)) cs)
      | y :: ns' =>
          Dir n (map (fun c => match c with
                               | Dir m _ => if m =? y then remove_at ns' p c else c
                               | File _ => c
                               end) cs)
      end
  end.

Definition named (x : string) (c : entry) : bool := entry_name c =? x.

Definition file_named (x : string) (c : entry) : bool :=
  match c with File f => f_name f =? x | Dir _ _ => false end.

(** [file_at e ns f]: [f] is a file of the directory reached from [e]
    through subdirectories named [ns]. *)
Inductive file_at : entry -> list string -> file_node -> Prop :=
| file_at_here n cs f : In (File f) cs -> file_at (Dir n cs) [] f
| file_at_down n cs m cs' ns f :
    In (Dir m cs') cs -> file_at (Dir m cs') ns f -> file_at (Dir n cs) (m :: ns) f.

(** What [os.listdir] can return: a non-empty name without [/], other than
    [.] and [..]. *)
Definition valid_name (n : string) : bool :=
  negb (is_empty n) && negb (has_char SLASH n) && negb (n =? ".") && negb (n =? "..").

(** Every name below the root is a valid name. *)
Fixpoint wf_tree (e : entry) : bool :=
  match e with
  | File _ => true
  | Dir _ cs => forallb (fun c => valid_name (entry_name c) && wf_tree c) cs
  end.

(** The files [generate_snapshot] passes over without building a record
    (lines 80-85). *)
Definition skipped (fnmatch : string -> string -> bool) (script_name : string)
    (ignore_patterns : list string) (f : file_node) : bool :=
  matches_any fnmatch ignore_patterns (f_name f)
  || (f_name f =? script_name) || (f_name f =? output_name).

(** A walk with the skipped files taken out. *)
Definition clean (fnmatch : string -> string -> bool) (script_name : string)
    (ignore_patterns : list string) (w : list (string * list file_node))
    : list (string * list file_node) :=
  map (fun '(r, fs) =>
         (r, filter (fun f => negb (skipped fnmatch script_name ignore_patterns f)) fs)) w.

Definition dir_files (cs : list entry) : list file_node :=
  flat_map (fun c => match c with File f => [f] | Dir _ _ => [] end) cs.

(** Sample trees. *)
Module Samples.

Definition text_file (n : string) (bs : list byte) : file_node :=
  {| f_name := n; f_data := Readable bs; f_fault := None |}.

(** The spec's scenario: [a.txt] holding ["hi\r\n"], [b.bin] holding
    [\x00\x01], and [.git/x]. *)
Definition scenario : entry :=
  Dir "root" [File (text_file "a.txt" [x68; x69; x0d; x0a]);
              File (text_file "b.bin" [x00; x01]);
              Dir ".git" [File (text_file "x" [])]].

Definition default_ignore : list string :=
  [".git"; "node_modules"; "*.pyc"; "__pycache__"; "*.log"; "target"; "Cargo.lock"].

(** A root with a file, a subdirectory and a pruned [.git]. *)
Definition nested : entry :=
  Dir "proj" [File (text_file "a.txt" [x68; x69]);
              Dir "src" [File (text_file "m.py" [x78])];
              Dir ".git" [File (text_file "x" [])]].

(** A previous output [out.json] (of [-o out.json]) in a subdirectory. *)
Definition old_output : file_node := text_file "out.json" [x7b; x7d].

Definition with_old_output : entry := Dir "proj" [Dir "build" [File old_output]].

Definition args_out : args :=
  {| a_input := "proj"; a_output := "out.json"; a_ignore := default_ignore;
     a_max_size := 1048576; a_no_content := false; a_structure_only := false;
     a_no_structure := true |}.

(** A tree where one record cannot be built: [bad] raises [MemoryError]
    outside the guarded read, [gone] cannot be opened. *)
Definition faulty : entry :=
  Dir "proj" [File (text_file "a.txt" [x68; x69]);
              Dir "lib" [File {| f_name := "bad"; f_data := Readable [];
                                 f_fault := Some "MemoryError" |};
                         File {| f_name := "gone"; f_data := Unreadable "Permission denied";
                                 f_fault := None |}]].


End Samples.

(** Facts a run of [generate_snapshot] is described by. *)
Section Observations.

Variable fnmatch : string -> string -> bool.
Variable script_name : string.
Variable decode_utf8 : list byte -> string.
Variable cwd : string.
Variable input_dir : string.
Variable ignore_patterns : list string.
Variable include_content : bool.
Variable max_size : Z.

(** A file of the walk whose record could not be built. *)
Definition fails (root : string) (f : file_node) : Prop :=
  skipped fnmatch script_name ignore_patterns f = false
  /\ exists m, get_file_info decode_utf8 cwd (py_join root (f_name f)) input_dir f
                 include_content max_size = Exc m.

Definition errors_nonempty (snap : snapshot) : Prop :=
  forall l, errors snap = Some l -> l <> [].

(** [r] is the record [get_file_info] builds for a file of the walk [w]. *)
Definition from_walk (w : list (string * list file_node)) (r : file_info) : Prop :=
  exists root fs f, In (root, fs) w /\ In f fs
    /\ get_file_info decode_utf8 cwd (py_join root (f_name f)) input_dir f
         include_content max_size = Ok r.

End Observations.

(** The components [abspath] feeds to [normpath], reversed and
    normalised. *)
Definition abs_comps (cwd s : string) : list string :=
  fold_left (norm_step true)
    (split_on SLASH (if starts_with SLASH s then s else py_join cwd s)) [].

(** A component [normpath] keeps. *)
Definition good_comp (x : string) : Prop := is_empty x = false /\ has_char SLASH x = false.

(** Number of CRLF pairs in a string. *)
Fixpoint crlf_count (s : string) : nat :=
  match s with
  | EmptyString => 0
  | String c s' =>
      (if Ascii.eqb c CR
       then match s' with String d _ => if Ascii.eqb d LF then 1 else 0 | EmptyString => 0 end
       else 0) + crlf_count s'
  end.

(** [len(s)] of the Python [str] whose UTF-8 encoding is [s]: the number of
    its bytes that do not continue a multi-byte sequence (continuation
    bytes are those of the form [10xxxxxx]). *)
Fixpoint py_len (s : string) : nat :=
  match s with
  | EmptyString => 0
  | String c s' => (if Nat.eqb (nat_of_ascii c / 64) 2 then 0 else 1) + py_len s'
  end.

(** Number of entries of a tree, the root included. *)
Fixpoint node_count (e : entry) : nat :=
  match e with
  | File _ => 1
  | Dir _ cs => S (fold_right (fun c n => node_count c + n) 0 cs)
  end.

Section WalkOutcome.

Variable fnmatch : string -> string -> bool.
Variable script_name : string.
Variable decode_utf8 : list byte -> string.
Variable cwd : string.
Variable input_dir : string.
Variable ignore_patterns : list string.
Variable include_content : bool.
Variable max_size : Z.

(** The records built for the files of a walk, in walk order. *)
Definition walk_records (w : list (string * list file_node)) : list file_info :=
  flat_map (fun '(root, fs) =>
    flat_map (fun f =>
      if skipped fnmatch script_name ignore_patterns f then []
      else match get_file_info decode_utf8 cwd (py_join root (f_name f)) input_dir f
                   include_content max_size with
           | Ok r => [r]
           | Exc _ => []
           end) fs) w.

(** The error entries for the files of a walk, in walk order. *)
Definition walk_errors (w : list (string * list file_node)) : list error_record :=
  flat_map (fun '(root, fs) =>
    flat_map (fun f =>
      if skipped fnmatch script_name ignore_patterns f then []
      else match get_file_info decode_utf8 cwd (py_join root (f_name f)) input_dir f
                   include_content max_size with
           | Ok _ => []
           | Exc e =>
               match relpath cwd (py_join root (f_name f)) input_dir with
               | Some rp => [{| er_path := py_replace "/" "/" rp; er_error := e |}]
               | None => []
               end
           end) fs) w.

End WalkOutcome.

(** The ["errors"] list, empty when the key is absent. *)
Definition errs (snap : snapshot) : list error_record :=
  match errors snap with Some l => l | None => [] end.


(* ------------------------------------------------------------------ *)
(** ** The walk on any host

    [get_file_info] and [generate_snapshot] with [os.sep], [os.path.join]
    and [os.path.relpath] those of the host: [sep] is [os.sep], [join a b]
    is [os.path.join(a, b)] and [rel p s] is [os.path.relpath(p, s)] (with
    the working directory of the run), [Exc] being the [ValueError] it
    raises.  The definitions of [Program] are the POSIX instance: [SLASH],
    [py_join] and [posix_rel cwd]. *)
Module Host.
Section Host.

Variable fnmatch : string -> string -> bool.
Variable script_name : string.
Variable decode_utf8 : list byte -> string.
(** [os.sep] *)
Variable sep : ascii.
(** [os.path.join] of two paths *)
Variable join : string -> string -> string.
(** [os.path.relpath] *)
Variable rel : string -> string -> res string.

Definition sep_str : string := String sep EmptyString.

(** [get_file_info] (lines 20-37). *)
Definition get_file_info (file_path base_path : string) (f : file_node)
    (include_content : bool) (max_size : Z) : res file_info :=
  match f_fault f with
  | Some m => Exc m
  | None =>
  match rel file_path base_path with
  | Exc m => Exc m
  | Ok rp =>
  let rel_path := py_replace sep_str "/" rp in
  if include_content then
    match f_data f with
    | Unreadable m => Ok {| fi_path := rel_path; fi_content := None; fi_error := Some m |}
    | Readable bs =>
        let content := py_read max_size bs in
        if is_text_file (f_data f) 8192 then
          let decoded_content := decode_utf8 content in
          Ok {| fi_path := rel_path;
                fi_content := Some (normalize_content decoded_content);
                fi_error := None |}
        else
          Ok {| fi_path := rel_path; fi_content := Some binary_marker; fi_error := None |}
    end
  else Ok {| fi_path := rel_path; fi_content := None; fi_error := None |}
  end
  end.

(** [os.walk(top)] with the caller's [dirs[:] = ...] filter [keep]. *)
Fixpoint os_walk (keep : string -> bool) (top : string) (e : entry)
    : list (string * list file_node) :=
  match e with
  | File _ => []
  | Dir _ cs =>
      (top, flat_map (fun c => match c with File f => [f] | Dir _ _ => [] end) cs)
      :: (fix go (cs : list entry) :=
            match cs with
            | [] => []
            | File _ :: cs' => go cs'
            | (Dir n _ as d) :: cs' =>
                (if keep n then os_walk keep (join top n) d else []) ++ go cs'
            end) cs
  end.

(** The body of the inner loop of [generate_snapshot] (lines 79-98). *)
Definition process_file (input_dir : string) (ignore_patterns : list string)
    (include_content : bool) (max_size : Z) (root : string) (f : file_node)
    (snap : snapshot) : res snapshot :=
  let file := f_name f in
  if matches_any fnmatch ignore_patterns file then Ok snap
  else if (file =? script_name) || (file =? output_name) then Ok snap
  else
    let file_path := join root file in
    match get_file_info file_path input_dir f include_content max_size with
    | Ok file_info =>
        Ok {| file_structure := file_structure snap;
              files := files snap ++ [file_info];
              errors := errors snap |}
    | Exc e =>
        match rel file_path input_dir with
        | Exc m => Exc m
        | Ok rp =>
            let errs := match errors snap with Some l => l | None => [] end in
            Ok {| file_structure := file_structure snap;
                  files := files snap;
                  errors := Some (errs ++ [{| er_path := py_replace sep_str "/" rp;
                                              er_error := e |}]) |}
        end
    end.

Fixpoint process_files (input_dir : string) (ignore_patterns : list string)
    (include_content : bool) (max_size : Z) (root : string)
    (fs : list file_node) (snap : snapshot) : res snapshot :=
  match fs with
  | [] => Ok snap
  | f :: fs' =>
      match process_file input_dir ignore_patterns include_content max_size root f snap with
      | Ok snap' => process_files input_dir ignore_patterns include_content max_size root fs' snap'
      | Exc m => Exc m
      end
  end.

Fixpoint process_walk (input_dir : string) (ignore_patterns : list string)
    (include_content : bool) (max_size : Z)
    (w : list (string * list file_node)) (snap : snapshot) : res snapshot :=
  match w with
  | [] => Ok snap
  | (root, fs) :: w' =>
      match process_files input_dir ignore_patterns include_content max_size root fs snap with
      | Ok snap' => process_walk input_dir ignore_patterns include_content max_size w' snap'
      | Exc m => Exc m
      end
  end.

(** [generate_snapshot] (lines 64-100). *)
Definition generate_snapshot (input_dir : string) (top : option entry)
    (ignore_patterns : list string) (include_content : bool) (max_size : Z)
    (include_structure : bool) : res snapshot :=
  let snap0 :=
    {| file_structure :=
         if include_structure
         then Some (generate_simple_file_structure fnmatch script_name input_dir top
                      ignore_patterns)
         else None;
       files := [];
       errors := None |} in
  match top with
  | None => Ok snap0
  | Some e =>
      process_walk input_dir ignore_patterns include_content max_size
        (os_walk (fun d => negb (matches_any fnmatch ignore_patterns d)) input_dir e) snap0
  end.

End Host.

(** [posixpath.relpath] with the working directory [cwd]. *)
Definition posix_rel (cwd p s : string) : res string :=
  match relpath cwd p s with
  | Some r => Ok r
  | None => Exc "no path specified"
  end.

(** A sample host whose [os.sep] is a backslash, for paths with no drive:
    [bs_join] puts a backslash between its arguments and [bs_rel p s]
    takes [s] and one backslash off the front of [p]. *)
Definition BSLASH : ascii := "092"%char.

Definition bs_join (a b : string) : string := (a ++ String BSLASH b)%string.

Definition bs_rel (p s : string) : res string :=
  if prefix (s ++ String BSLASH EmptyString) p
  then Ok (str_drop (String.length (s ++ String BSLASH EmptyString)) p)
  else Exc "path is not below start".

End Host.

(** No name below the root contains the character [c]. *)
Fixpoint sep_free (c : ascii) (e : entry) : bool :=
  match e with
  | File _ => true
  | Dir _ cs => forallb (fun x => negb (has_char c (entry_name x)) && sep_free c x) cs
  end.

(** [s.replace(c, new)] for a one-character [c], by structural recursion. *)
Fixpoint repl_char (c : ascii) (new s : string) : string :=
  match s with
  | EmptyString => EmptyString
  | String x s' => if Ascii.eqb c x then (new ++ repl_char c new s')%string
                   else String x (repl_char c new s')
  end.

(* ================================================================== *)
(** * Proofs *)

Module NormalizeFacts.
Import Normalize.

Lemma prefix_nil : forall s, prefix EmptyString s = true.
Proof. destruct s; reflexivity. Qed.

Lemma replace_from_crlf : forall fuel s, String.length s <= fuel ->
  replace_from fuel (String CR (String LF EmptyString)) (String LF EmptyString) s
  = repl_crlf s.
Proof.
  induction fuel as [|f IH]; intros s Hl.
  - destruct s; [reflexivity | simpl in Hl; lia].
  - destruct s as [|c s']; [reflexivity|].
    simpl in Hl. cbn [replace_from repl_crlf].
    destruct (Ascii.eqb_spec c CR) as [->|Hc].
    + destruct s' as [|d s''].
      * destruct f; reflexivity.
      * destruct (Ascii.eqb_spec d LF) as [->|Hd].
        -- simpl. assert (Hp : prefix "" s'' = true) by (destruct s''; reflexivity).
           rewrite Hp. f_equal. apply IH. simpl in Hl. lia.
        -- cbn [prefix]. destruct (ascii_dec CR CR) as [_|]; [|congruence].
           destruct (ascii_dec LF d) as [e|_]; [congruence|].
           simpl. f_equal. apply IH. lia.
    + cbn [prefix]. destruct (ascii_dec CR c) as [e|_]; [congruence|].
      f_equal. apply IH. lia.
Qed.

Lemma replace_from_cr : forall fuel s, String.length s <= fuel ->
  replace_from fuel (String CR EmptyString) (String LF EmptyString) s = repl_cr s.
Proof.
  induction fuel as [|f IH]; intros s Hl.
  - destruct s; [reflexivity | simpl in Hl; lia].
  - destruct s as [|c s']; [reflexivity|].
    simpl in Hl. cbn [replace_from repl_cr prefix].
    destruct (ascii_dec CR c) as [<-|Hc].
    + simpl. rewrite prefix_nil. f_equal. apply IH. lia.
    + replace (Ascii.eqb c CR) with false
        by (symmetry; apply Ascii.eqb_neq; congruence).
      f_equal. apply IH. lia.
Qed.

Lemma normalize_content_structural : forall s,
  normalize_content s = repl_cr (repl_crlf s).
Proof.
  intro s. unfold normalize_content, py_replace.
  rewrite replace_from_crlf by lia.
  apply replace_from_cr. lia.
Qed.

Lemma repl_cr_no_cr : forall s, has_char CR (repl_cr s) = false.
Proof.
  induction s as [|c s IH]; [reflexivity|].
  cbn [repl_cr has_char]. rewrite IH, orb_false_r.
  destruct (Ascii.eqb_spec c CR) as [->|Hc]; [reflexivity|].
  apply Ascii.eqb_neq. congruence.
Qed.

Lemma repl_cr_id : forall s, has_char CR s = false -> repl_cr s = s.
Proof.
  induction s as [|c s IH]; intro H; [reflexivity|].
  cbn [has_char] in H. apply orb_false_iff in H as [H1 H2].
  cbn [repl_cr repl_crlf]. rewrite Ascii.eqb_sym, H1, IH by exact H2. reflexivity.
Qed.

Lemma repl_crlf_id : forall s, has_char CR s = false -> repl_crlf s = s.
Proof.
  induction s as [|c s IH]; intro H; [reflexivity|].
  cbn [has_char] in H. apply orb_false_iff in H as [H1 H2].
  cbn [repl_cr repl_crlf]. rewrite Ascii.eqb_sym, H1, IH by exact H2. reflexivity.
Qed.

Lemma normalize_is_spec : forall n s, String.length s <= n ->
  repl_cr (repl_crlf s) = spec_normalize s.
Proof.
  induction n as [|n IH]; intros s Hl.
  - destruct s; [reflexivity | simpl in Hl; lia].
  - destruct s as [|c s']; [reflexivity|]. simpl in Hl.
    cbn [repl_crlf spec_normalize].
    destruct (Ascii.eqb_spec c CR) as [->|Hc].
    + destruct s' as [|d s''].
      * reflexivity.
      * destruct (Ascii.eqb_spec d LF) as [->|Hd].
        -- simpl. f_equal. apply IH. simpl in Hl. lia.
        -- cbn [repl_cr]. rewrite Ascii.eqb_refl. f_equal. apply IH. lia.
    + cbn [repl_cr]. rewrite (proj2 (Ascii.eqb_neq c CR) Hc).
      f_equal. apply IH. lia.
Qed.

End NormalizeFacts.

(** C5: [normalize_content] is idempotent, its result has no carriage
    return, and it agrees with the spec's wording: every CRLF and every lone
    CR becomes LF. *)
Theorem normalize_content_idempotent_no_cr : forall s : string,
  normalize_content (normalize_content s) = normalize_content s
  /\ has_char CR (normalize_content s) = false
  /\ normalize_content s = spec_normalize s.
Proof.
  intro s. rewrite !NormalizeFacts.normalize_content_structural.
  pose proof (NormalizeFacts.repl_cr_no_cr (Normalize.repl_crlf s)) as H.
  split; [|split].
  - rewrite NormalizeFacts.repl_crlf_id by exact H.
    apply NormalizeFacts.repl_cr_id. exact H.
  - exact H.
  - apply (NormalizeFacts.normalize_is_spec (String.length s)). lia.
Qed.

Lemma existsb_nul_in : forall l : list byte,
  existsb (Byte.eqb x00) l = true <-> In x00 l.
Proof.
  intro l. rewrite existsb_exists. split.
  - intros [b [Hin Hb]]. apply Byte.byte_dec_bl in Hb. subst b. exact Hin.
  - intro Hin. exists x00. split; [exact Hin | apply Byte.byte_dec_lb; reflexivity].
Qed.

(** C2: whatever the file's name, a readable file is classified as text
    exactly when its first 8192 bytes contain no NUL byte, and a file that
    cannot be opened or read is classified as binary ([false]); the result
    is a boolean, never an exception. *)
Theorem is_text_file_nul_window : forall f : file_node,
  match f_data f with
  | Readable bs =>
      is_text_file (f_data f) 8192 = true <-> ~ In x00 (firstn (Z.to_nat 8192) bs)
  | Unreadable _ => is_text_file (f_data f) 8192 = false
  end.
Proof.
  intro f. destruct (f_data f) as [bs|m]; [|reflexivity].
  unfold is_text_file, py_read. cbn [Z.ltb Z.compare].
  rewrite negb_true_iff, <- existsb_nul_in.
  destruct (existsb (Byte.eqb x00) (firstn (Z.to_nat 8192) bs)); split; congruence.
Qed.






(** ** The walk *)

Lemma flat_map_map : forall (A B C : Type) (f : B -> list C) (g : A -> B) l,
  flat_map f (map g l) = flat_map (fun x => f (g x)) l.
Proof. intros. induction l as [|x l IH]; simpl; [reflexivity | rewrite IH; reflexivity]. Qed.

Lemma flat_map_ext_in : forall (A B : Type) (f g : A -> list B) l,
  (forall x, In x l -> f x = g x) -> flat_map f l = flat_map g l.
Proof.
  intros A B f g l H. induction l as [|x l IH]; simpl; [reflexivity|].
  rewrite H by (left; reflexivity). rewrite IH by (intros; apply H; right; assumption).
  reflexivity.
Qed.

Lemma os_walk_dir : forall keep top n cs,
  os_walk keep top (Dir n cs)
  = (top, dir_files cs)
    :: flat_map (fun c => match c with
                          | Dir m _ => if keep m then os_walk keep (py_join top m) c else []
                          | File _ => []
                          end) cs.
Proof.
  intros keep top n cs. cbn [os_walk]. f_equal.
  induction cs as [|[f|m cs'] cs IH]; simpl; [reflexivity | exact IH |].
  rewrite IH. reflexivity.
Qed.

Lemma remove_at_dir : forall ns p m cs,
  exists cs', remove_at ns p (Dir m cs) = Dir m cs'.
Proof. intros [|y ns] p m cs; eexists; reflexivity. Qed.

Lemma clean_app : forall fn sc pats w1 w2,
  clean fn sc pats (w1 ++ w2) = clean fn sc pats w1 ++ clean fn sc pats w2.
Proof. intros. unfold clean. apply map_app. Qed.

Lemma clean_cons : forall fn sc pats r fs w,
  clean fn sc pats ((r, fs) :: w)
  = (r, filter (fun f => negb (skipped fn sc pats f)) fs) :: clean fn sc pats w.
Proof. reflexivity. Qed.

Lemma clean_flat_map : forall fn sc pats (A : Type) (g : A -> list (string * list file_node)) l,
  clean fn sc pats (flat_map g l) = flat_map (fun x => clean fn sc pats (g x)) l.
Proof.
  intros. induction l as [|x l IH]; [reflexivity|].
  simpl. rewrite clean_app, IH. reflexivity.
Qed.

Lemma entry_name_listing : forall fn sc pats c,
  entry_name (listing fn sc pats c) = entry_name c.
Proof. intros fn sc pats [f|n cs]; reflexivity. Qed.

Lemma entry_name_remove_at : forall ns p c, entry_name (remove_at ns p c) = entry_name c.
Proof. intros [|y ns] p [f|n cs]; reflexivity. Qed.

Lemma filter_map_pointwise : forall (h g : entry -> entry) (q : entry -> bool) cs,
  (forall c, In c cs -> h (g c) = h c \/ (q (h (g c)) = false /\ q (h c) = false)) ->
  filter q (map h (map g cs)) = filter q (map h cs).
Proof.
  intros h g q cs H. induction cs as [|c cs IH]; [reflexivity|].
  simpl. rewrite IH by (intros; apply H; right; assumption).
  destruct (H c (or_introl eq_refl)) as [E | [E1 E2]].
  - rewrite E. reflexivity.
  - rewrite E1, E2. reflexivity.
Qed.

Section Facts.

Variable fnmatch : string -> string -> bool.
Variable script_name : string.
Variable decode_utf8 : list byte -> string.
Variable cwd : string.

Lemma process_file_skip : forall input_dir pats ic ms root f snap,
  skipped fnmatch script_name pats f = true ->
  process_file fnmatch script_name decode_utf8 cwd input_dir pats ic ms root f snap = Ok snap.
Proof.
  intros input_dir pats ic ms root f snap H. unfold skipped in H. unfold process_file.
  destruct (matches_any fnmatch pats (f_name f)); [reflexivity|].
  simpl in H. rewrite H. reflexivity.
Qed.

Lemma process_files_filter : forall input_dir pats ic ms root fs snap,
  process_files fnmatch script_name decode_utf8 cwd input_dir pats ic ms root fs snap
  = process_files fnmatch script_name decode_utf8 cwd input_dir pats ic ms root
      (filter (fun f => negb (skipped fnmatch script_name pats f)) fs) snap.
Proof.
  intros input_dir pats ic ms root fs. induction fs as [|f fs IH]; intro snap; [reflexivity|].
  cbn [filter process_files].
  destruct (skipped fnmatch script_name pats f) eqn:E; cbn [negb].
  - rewrite process_file_skip by exact E. apply IH.
  - cbn [process_files].
    destruct (process_file fnmatch script_name decode_utf8 cwd input_dir pats ic ms root f snap);
      [apply IH | reflexivity].
Qed.

Lemma process_walk_clean : forall input_dir pats ic ms w snap,
  process_walk fnmatch script_name decode_utf8 cwd input_dir pats ic ms w snap
  = process_walk fnmatch script_name decode_utf8 cwd input_dir pats ic ms
      (clean fnmatch script_name pats w) snap.
Proof.
  intros input_dir pats ic ms w. induction w as [|[root fs] w IH]; intro snap; [reflexivity|].
  cbn [clean map process_walk]. rewrite <- process_files_filter.
  destruct (process_files fnmatch script_name decode_utf8 cwd input_dir pats ic ms root fs snap);
    [apply IH | reflexivity].
Qed.

(** Deleting entries inside a directory the walk never enters changes
    nothing. *)
Lemma os_walk_remove_unvisited : forall keep p e ns top,
  existsb (fun y => negb (keep y)) ns = true ->
  os_walk keep top (remove_at ns p e) = os_walk keep top e.
Proof.
  intros keep p e. induction e as [f|n cs IH] using entry_ind'; intros ns top Hns;
    [destruct ns; reflexivity|].
  destruct ns as [|y ns']; [discriminate|].
  cbn [remove_at]. rewrite !os_walk_dir. f_equal; [f_equal|].
  - unfold dir_files. rewrite flat_map_map. apply flat_map_ext.
    intros [f|m cs']; [reflexivity|]. destruct (m =? y); [|reflexivity].
    destruct (remove_at_dir ns' p m cs') as [cs'' ->]. reflexivity.
  - rewrite flat_map_map. apply flat_map_ext_in. intros c Hc.
    destruct c as [f|m cs']; [reflexivity|].
    destruct (String.eqb_spec m y) as [->|Hm]; [|reflexivity].
    destruct (remove_at_dir ns' p y cs') as [cs'' Hr]. rewrite Hr.
    destruct (keep y) eqn:Ky; [|reflexivity].
    cbn [existsb] in Hns. rewrite Ky in Hns. simpl in Hns.
    rewrite <- Hr. rewrite Forall_forall in IH. apply (IH _ Hc). exact Hns.
Qed.

(** Deleting, in one directory, children that the walk skips anyway
    (skipped files, directories it does not enter) leaves the cleaned walk
    unchanged. *)
Lemma os_walk_remove_skipped : forall pats keep p e ns top,
  (forall c, p c = true ->
     match c with
     | File f => skipped fnmatch script_name pats f = true
     | Dir m _ => keep m = false
     end) ->
  clean fnmatch script_name pats (os_walk keep top (remove_at ns p e))
  = clean fnmatch script_name pats (os_walk keep top e).
Proof.
  intros pats keep p e. induction e as [f|n cs IH] using entry_ind'; intros ns top Hp;
    [destruct ns; reflexivity|].
  destruct ns as [|y ns'].
  - cbn [remove_at]. rewrite !os_walk_dir, !clean_cons. f_equal; [f_equal|].
    + unfold dir_files. induction cs as [|c cs IHc]; [reflexivity|].
      simpl. destruct (p c) eqn:Pc; simpl.
      * rewrite IHc by (inversion IH; assumption).
        specialize (Hp c Pc). destruct c as [f|m cs']; simpl; [|reflexivity].
        rewrite Hp. reflexivity.
      * rewrite !filter_app, IHc by (inversion IH; assumption). reflexivity.
    + rewrite !clean_flat_map. induction cs as [|c cs IHc]; [reflexivity|].
      simpl. destruct (p c) eqn:Pc; simpl.
      * rewrite IHc by (inversion IH; assumption).
        specialize (Hp c Pc). destruct c as [f|m cs']; simpl; [reflexivity|].
        rewrite Hp. reflexivity.
      * rewrite IHc by (inversion IH; assumption). reflexivity.
  - cbn [remove_at]. rewrite !os_walk_dir, !clean_cons. f_equal; [f_equal|].
    + unfold dir_files. rewrite flat_map_map. f_equal. apply flat_map_ext.
      intros [f|m cs']; [reflexivity|]. destruct (m =? y); [|reflexivity].
      destruct (remove_at_dir ns' p m cs') as [cs'' ->]. reflexivity.
    + rewrite !clean_flat_map, flat_map_map. apply flat_map_ext_in. intros c Hc.
      destruct c as [f|m cs']; [reflexivity|].
      destruct (String.eqb_spec m y) as [->|Hm]; [|reflexivity].
      destruct (remove_at_dir ns' p y cs') as [cs'' Hr]. rewrite Hr.
      destruct (keep y) eqn:Ky; [|reflexivity].
      rewrite <- Hr. rewrite Forall_forall in IH. apply (IH _ Hc). exact Hp.
Qed.

(** The renderer's listing is unchanged when entries it filters out are
    deleted, or when anything is deleted inside a directory it filters out. *)
Lemma listing_remove_filtered : forall pats p e ns,
  existsb (fun y => negb (negb (matches_any fnmatch pats y)
                          && negb (y =? script_name) && negb (y =? output_name))) ns = true
  \/ (forall c, p c = true -> retained fnmatch script_name pats c = false) ->
  listing fnmatch script_name pats (remove_at ns p e) = listing fnmatch script_name pats e.
Proof.
  intros pats p e. induction e as [f|n cs IH] using entry_ind'; intros ns Hq;
    [destruct ns; reflexivity|].
  destruct ns as [|y ns'].
  - destruct Hq as [Hq|Hp]; [discriminate|].
    cbn [remove_at listing]. f_equal. f_equal.
    induction cs as [|c cs IHc]; [reflexivity|].
    simpl. destruct (p c) eqn:Pc; simpl.
    + rewrite IHc by (inversion IH; assumption).
      unfold retained at 2. rewrite entry_name_listing. fold (retained fnmatch script_name pats c).
      rewrite (Hp c Pc). reflexivity.
    + rewrite IHc by (inversion IH; assumption). reflexivity.
  - cbn [remove_at listing]. f_equal. f_equal. apply filter_map_pointwise.
    intros c Hc. destruct c as [f|m cs']; [left; reflexivity|].
    destruct (String.eqb_spec m y) as [->|Hm]; [|left; reflexivity].
    unfold retained. rewrite !entry_name_listing, entry_name_remove_at. cbn [entry_name].
    destruct (negb (matches_any fnmatch pats y) && negb (y =? script_name)
              && negb (y =? output_name)) eqn:Ky; [|right; split; reflexivity].
    left. rewrite Forall_forall in IH. apply (IH _ Hc).
    destruct Hq as [Hq|Hp]; [left|right; exact Hp].
    cbn [existsb] in Hq. rewrite Ky in Hq. exact Hq.
Qed.

End Facts.

(** C1 (amended): for every pattern set and every tree, deleting an entry
    below the scanned root (at directory path [ns], named [x]) when [x] or
    one of the directories [ns] on its way matches an ignore pattern leaves
    the whole snapshot unchanged: neither the entry nor anything under it
    shows up in [files], in [errors] or in [file_structure]. *)
Theorem generate_snapshot_prunes_matched_subtree :
  forall fnmatch script_name decode cwd input_dir e ignore_patterns
         include_content max_size include_structure ns x,
  existsb (matches_any fnmatch ignore_patterns) (ns ++ [x]) = true ->
  generate_snapshot fnmatch script_name decode cwd input_dir
    (Some (remove_at ns (named x) e)) ignore_patterns include_content max_size
    include_structure
  = generate_snapshot fnmatch script_name decode cwd input_dir
      (Some e) ignore_patterns include_content max_size include_structure.
Proof.
  intros fn sc dec cwd input_dir e pats ic ms is ns x H.
  unfold generate_snapshot, generate_simple_file_structure.
  rewrite existsb_app in H. cbn [existsb] in H. rewrite orb_false_r in H.
  rewrite (listing_remove_filtered fn sc pats (named x) e ns).
  2:{ apply orb_true_iff in H as [H|H].
      - left. apply existsb_exists in H as [y [Hy Hm]].
        apply existsb_exists. exists y. split; [exact Hy|]. rewrite Hm. reflexivity.
      - right. intros c Hc. unfold named in Hc. apply String.eqb_eq in Hc.
        unfold retained. rewrite Hc, H. reflexivity. }
  rewrite (process_walk_clean fn sc dec cwd input_dir pats ic ms). symmetry.
  rewrite (process_walk_clean fn sc dec cwd input_dir pats ic ms). symmetry.
  f_equal.
  apply orb_true_iff in H as [H|H].
  - rewrite os_walk_remove_unvisited; [reflexivity|].
    apply existsb_exists in H as [y [Hy Hm]].
    apply existsb_exists. exists y. split; [exact Hy|]. rewrite Hm. reflexivity.
  - apply os_walk_remove_skipped. intros c Hc. unfold named in Hc.
    apply String.eqb_eq in Hc. destruct c as [f|m cs]; cbn [entry_name] in Hc; subst.
    + unfold skipped. rewrite H. reflexivity.
    + rewrite H. reflexivity.
Qed.

(** C7: whatever the ignore patterns, deleting the files named exactly
    [os.path.basename(__file__)] or ["directory_snapshot.json"] from any
    directory of the tree leaves the snapshot unchanged: the walk and the
    renderer both skip them. *)
Theorem generate_snapshot_skips_self_and_output :
  forall fnmatch script_name decode cwd input_dir e ignore_patterns
         include_content max_size include_structure ns x,
  x = script_name \/ x = output_name ->
  generate_snapshot fnmatch script_name decode cwd input_dir
    (Some (remove_at ns (file_named x) e)) ignore_patterns include_content max_size
    include_structure
  = generate_snapshot fnmatch script_name decode cwd input_dir
      (Some e) ignore_patterns include_content max_size include_structure.
Proof.
  intros fn sc dec cwd input_dir e pats ic ms is ns x H.
  unfold generate_snapshot, generate_simple_file_structure.
  rewrite (listing_remove_filtered fn sc pats (file_named x) e ns).
  2:{ right. intros [f|m cs] Hc; [|discriminate]. cbn [file_named] in Hc.
      apply String.eqb_eq in Hc. unfold retained. cbn [entry_name]. rewrite Hc.
      destruct H as [->| ->]; rewrite String.eqb_refl, ?andb_false_r; reflexivity. }
  rewrite (process_walk_clean fn sc dec cwd input_dir pats ic ms). symmetry.
  rewrite (process_walk_clean fn sc dec cwd input_dir pats ic ms). symmetry.
  f_equal.
  apply os_walk_remove_skipped. intros [f|m cs] Hc; [|discriminate].
  cbn [file_named] in Hc. apply String.eqb_eq in Hc. unfold skipped. rewrite Hc.
  destruct H as [->| ->]; rewrite String.eqb_refl, ?orb_true_r; reflexivity.
Qed.

Lemma generate_snapshot_prunes_matched_subtree_witness :
  existsb (matches_any Glob.fnmatch Samples.default_ignore) ([".git"] ++ ["x"]) = true
  /\ generate_snapshot Glob.fnmatch "snapshot.py" Glob.ascii_decode "/home/u" "root"
       (Some (remove_at [".git"] (named "x") Samples.scenario)) Samples.default_ignore
       true 1048576 true
     = generate_snapshot Glob.fnmatch "snapshot.py" Glob.ascii_decode "/home/u" "root"
         (Some Samples.scenario) Samples.default_ignore true 1048576 true.
Proof.
  split; [vm_compute; reflexivity|].
  apply (generate_snapshot_prunes_matched_subtree Glob.fnmatch "snapshot.py"
           Glob.ascii_decode "/home/u" "root" Samples.scenario Samples.default_ignore
           true 1048576 true [".git"] "x").
  vm_compute. reflexivity.
Defined.

(** C1, as first stated, fails for the scanned root itself: its basename is
    never tested, so scanning a directory named [target] with the default
    patterns (which include [target]) lists its contents. *)
Lemma generate_snapshot_root_not_pruned :
  matches_any Glob.fnmatch Samples.default_ignore (entry_name (Dir "target" [])) = true
  /\ generate_snapshot Glob.fnmatch "snapshot.py" Glob.ascii_decode "/home/u" "target"
       (Some (Dir "target" [File (Samples.text_file "a.txt" [x68; x69])]))
       Samples.default_ignore false 1048576 true
     = Ok {| file_structure := Some "└── a.txt";
             files := [{| fi_path := "a.txt"; fi_content := None; fi_error := None |}];
             errors := None |}.
Proof. split; vm_compute; reflexivity. Qed.

Lemma generate_snapshot_skips_self_and_output_witness :
  ("directory_snapshot.json" = "snapshot.py" \/ "directory_snapshot.json" = output_name)
  /\ generate_snapshot Glob.fnmatch "snapshot.py" Glob.ascii_decode "/home/u" "root"
       (Some (remove_at [] (file_named "directory_snapshot.json")
                (Dir "root" [File (Samples.text_file "directory_snapshot.json" []);
                             File (Samples.text_file "a.txt" [])])))
       [] true 1048576 true
     = generate_snapshot Glob.fnmatch "snapshot.py" Glob.ascii_decode "/home/u" "root"
         (Some (Dir "root" [File (Samples.text_file "directory_snapshot.json" []);
                            File (Samples.text_file "a.txt" [])]))
         [] true 1048576 true.
Proof.
  split; [right; reflexivity|].
  apply (generate_snapshot_skips_self_and_output Glob.fnmatch "snapshot.py"
           Glob.ascii_decode "/home/u" "root"
           (Dir "root" [File (Samples.text_file "directory_snapshot.json" []);
                        File (Samples.text_file "a.txt" [])])
           [] true 1048576 true [] "directory_snapshot.json").
  right. reflexivity.
Defined.

(** C9: with [dir1/f1] and [f2] the retained entries of the root, in either
    listing order, the renderer prints exactly the three lines
    ["├── dir1/"], ["│   └── f1"], ["└── f2"]. *)
Theorem structure_renderer_example :
  forall fnmatch script_name input_dir ignore_patterns root f1 f2,
  f_name f1 = "f1" -> f_name f2 = "f2" ->
  forallb (fun n => negb (matches_any fnmatch ignore_patterns n) && negb (n =? script_name))
    ["dir1"; "f1"; "f2"] = true ->
  generate_simple_file_structure fnmatch script_name input_dir
    (Some (Dir root [Dir "dir1" [File f1]; File f2])) ignore_patterns
  = String.concat (String LF EmptyString) ["├── dir1/"; "│   └── f1"; "└── f2"]
  /\ generate_simple_file_structure fnmatch script_name input_dir
       (Some (Dir root [File f2; Dir "dir1" [File f1]])) ignore_patterns
     = String.concat (String LF EmptyString) ["├── dir1/"; "│   └── f1"; "└── f2"].
Proof.
  intros fn sc input_dir pats root f1 f2 Hn1 Hn2 H.
  cbn [forallb] in H. rewrite !andb_true_r in H. rewrite !andb_true_iff in H.
  destruct H as [[Hd Hds] [[H1 H1s] [H3 H3s]]].
  apply negb_true_iff in Hd, Hds, H1, H1s, H3, H3s.
  destruct f1 as [n1 d1 x1], f2 as [n2 d2 x2]. cbn [f_name] in Hn1, Hn2. subst n1 n2.
  unfold generate_simple_file_structure. cbn [listing map filter].
  unfold retained. cbn [entry_name f_name]. rewrite Hd, Hds, H1, H1s, H3, H3s.
  split; reflexivity.
Qed.

Lemma structure_renderer_example_witness :
  generate_simple_file_structure Glob.fnmatch "snapshot.py" "root"
    (Some (Dir "root" [Dir "dir1" [File (Samples.text_file "f1" [])];
                       File (Samples.text_file "f2" [])])) Samples.default_ignore
  = String.concat (String LF EmptyString) ["├── dir1/"; "│   └── f1"; "└── f2"].
Proof.
  exact (proj1 (structure_renderer_example Glob.fnmatch "snapshot.py" "root"
                  Samples.default_ignore "root" (Samples.text_file "f1" [])
                  (Samples.text_file "f2" []) eq_refl eq_refl
                  ltac:(vm_compute; reflexivity))).
Defined.

(** ** Traversal-level errors *)

Section Errors.

Variable fnmatch : string -> string -> bool.
Variable script_name : string.
Variable decode_utf8 : list byte -> string.
Variable cwd : string.
Variable input_dir : string.
Variable ignore_patterns : list string.
Variable include_content : bool.
Variable max_size : Z.

Local Abbreviation failing := (fails fnmatch script_name decode_utf8 cwd input_dir
  ignore_patterns include_content max_size).



Lemma process_file_errors : forall root f snap snap',
  process_file fnmatch script_name decode_utf8 cwd input_dir ignore_patterns
    include_content max_size root f snap = Ok snap' ->
  (errors snap' <> None <-> errors snap <> None \/ failing root f)
  /\ (errors_nonempty snap -> errors_nonempty snap').
Proof.
  intros root f snap snap' H. unfold process_file in H. unfold fails, skipped.
  destruct (matches_any fnmatch ignore_patterns (f_name f)) eqn:Em.
  { injection H as <-. split; [|tauto]. split; [tauto|].
    intros [H|[Hs _]]; [exact H | discriminate]. }
  destruct ((f_name f =? script_name) || (f_name f =? output_name)) eqn:En.
  { injection H as <-. split; [|tauto]. split; [tauto|].
    intros [H|[Hs _]]; [exact H|]. cbn in Hs. rewrite En in Hs. discriminate. }
  cbn [orb]. rewrite En.
  destruct (get_file_info decode_utf8 cwd (py_join root (f_name f)) input_dir f
              include_content max_size) as [r|m] eqn:Eg.
  - injection H as <-. cbn [errors]. split; [|tauto]. split; [tauto|].
    intros [H|[_ [m Hm]]]; [exact H | discriminate].
  - destruct (relpath cwd (py_join root (f_name f)) input_dir) as [rp|]; [|discriminate].
    injection H as <-. cbn [errors]. split.
    + split; [intros _; right; split; [reflexivity | exists m; reflexivity]|].
      intros _. discriminate.
    + intros _ l Hl. injection Hl as <-. intro Hn. symmetry in Hn.
      destruct (errors snap); exact (app_cons_not_nil _ _ _ Hn).
Qed.

Lemma process_files_errors : forall root fs snap snap',
  process_files fnmatch script_name decode_utf8 cwd input_dir ignore_patterns
    include_content max_size root fs snap = Ok snap' ->
  (errors snap' <> None <-> errors snap <> None \/ exists f, In f fs /\ failing root f)
  /\ (errors_nonempty snap -> errors_nonempty snap').
Proof.
  intros root fs. induction fs as [|f fs IH]; intros snap snap' H.
  - injection H as <-. split; [|tauto]. split; [tauto|].
    intros [H|[f [[] _]]]; exact H.
  - cbn [process_files] in H.
    destruct (process_file fnmatch script_name decode_utf8 cwd input_dir ignore_patterns
                include_content max_size root f snap) as [s1|m] eqn:E1; [|discriminate].
    destruct (process_file_errors root f snap s1 E1) as [A1 B1].
    destruct (IH s1 snap' H) as [A2 B2]. split; [|tauto].
    rewrite A2, A1. split.
    + intros [[H1|H1]|[g [Hg H2]]]; [tauto| |].
      * right. exists f. split; [left; reflexivity | exact H1].
      * right. exists g. split; [right; exact Hg | exact H2].
    + intros [H1|[g [[<-|Hg] H2]]]; [tauto | left; right; exact H2 |].
      right. exists g. split; assumption.
Qed.

Lemma process_walk_errors : forall w snap snap',
  process_walk fnmatch script_name decode_utf8 cwd input_dir ignore_patterns
    include_content max_size w snap = Ok snap' ->
  (errors snap' <> None
   <-> errors snap <> None \/ exists root fs f, In (root, fs) w /\ In f fs /\ failing root f)
  /\ (errors_nonempty snap -> errors_nonempty snap').
Proof.
  intro w. induction w as [|[root fs] w IH]; intros snap snap' H.
  - injection H as <-. split; [|tauto]. split; [tauto|].
    intros [H|[r [fs [f [[] _]]]]]; exact H.
  - cbn [process_walk] in H.
    destruct (process_files fnmatch script_name decode_utf8 cwd input_dir ignore_patterns
                include_content max_size root fs snap) as [s1|m] eqn:E1; [|discriminate].
    destruct (process_files_errors root fs snap s1 E1) as [A1 B1].
    destruct (IH s1 snap' H) as [A2 B2]. split; [|tauto].
    rewrite A2, A1. split.
    + intros [[H1|[f [Hf H2]]]|[r [gs [g [Hr [Hg H2]]]]]]; [tauto| |].
      * right. exists root, fs, f. split; [left; reflexivity | split; assumption].
      * right. exists r, gs, g. split; [right; exact Hr | split; assumption].
    + intros [H1|[r [gs [g [[Hr|Hr] [Hg H2]]]]]]; [tauto| |].
      * injection Hr as -> ->. left. right. exists g. split; assumption.
      * right. exists r, gs, g. split; [exact Hr | split; assumption].
Qed.

End Errors.

(** C8: a snapshot has an ["errors"] key exactly when the record of some
    walked, non-skipped file could not be built, and then the list is not
    empty; an empty root directory gives no ["files"] entry, an empty
    structure and no ["errors"] key. *)
Theorem generate_snapshot_errors_iff :
  forall fnmatch script_name decode cwd input_dir e ignore_patterns
         include_content max_size include_structure snap,
  generate_snapshot fnmatch script_name decode cwd input_dir (Some e) ignore_patterns
    include_content max_size include_structure = Ok snap ->
  (errors snap <> None
   <-> exists root fs f,
         In (root, fs) (os_walk (fun d => negb (matches_any fnmatch ignore_patterns d))
                          input_dir e)
         /\ In f fs
         /\ fails fnmatch script_name decode cwd input_dir ignore_patterns
              include_content max_size root f)
  /\ (forall l, errors snap = Some l -> l <> [])
  /\ (forall n, generate_snapshot fnmatch script_name decode cwd input_dir
                  (Some (Dir n [])) ignore_patterns include_content max_size
                  include_structure
                = Ok {| file_structure := if include_structure then Some "" else None;
                        files := []; errors := None |}).
Proof.
  intros fn sc dec cwd input_dir e pats ic ms is snap H.
  unfold generate_snapshot in H.
  destruct (process_walk_errors fn sc dec cwd input_dir pats ic ms _ _ _ H) as [A B].
  split; [|split].
  - rewrite A. cbn [errors]. split; [intros [H1|H1]; [congruence | exact H1] | tauto].
  - apply B. intros l Hl. discriminate.
  - intro n. reflexivity.
Qed.

Lemma generate_snapshot_errors_iff_witness :
  generate_snapshot Glob.fnmatch "snapshot.py" Glob.ascii_decode "/home/u" "root"
    (Some (Dir "root" [File {| f_name := "a"; f_data := Readable [];
                               f_fault := Some "MemoryError" |}]))
    [] true 1048576 false
  = Ok {| file_structure := None; files := [];
          errors := Some [{| er_path := "a"; er_error := "MemoryError" |}] |}
  /\ (forall l, Some [{| er_path := "a"; er_error := "MemoryError" |}] = Some l -> l <> []).
Proof.
  split; [vm_compute; reflexivity|].
  exact (proj1 (proj2 (generate_snapshot_errors_iff Glob.fnmatch "snapshot.py"
    Glob.ascii_decode "/home/u" "root"
    (Dir "root" [File {| f_name := "a"; f_data := Readable [];
                         f_fault := Some "MemoryError" |}])
    [] true 1048576 false
    {| file_structure := None; files := [];
       errors := Some [{| er_path := "a"; er_error := "MemoryError" |}] |}
    ltac:(vm_compute; reflexivity)))).
Defined.

(** ** Strings and [posixpath] *)

Module StrFacts.

Lemma app_assoc_str : forall a b c : string, ((a ++ b) ++ c)%string = (a ++ (b ++ c))%string.
Proof. induction a as [|x a IH]; intros; simpl; [reflexivity | rewrite IH; reflexivity]. Qed.

Lemma app_nil_r_str : forall a : string, (a ++ "")%string = a.
Proof. induction a as [|x a IH]; simpl; [reflexivity | rewrite IH; reflexivity]. Qed.

Lemma split_on_nonnil : forall c s, split_on c s <> [].
Proof.
  intros c s. destruct s as [|x s]; simpl; [discriminate|].
  destruct (Ascii.eqb c x); [discriminate|]. destruct (split_on c s); discriminate.
Qed.

Lemma split_on_app : forall a b,
  split_on SLASH (a ++ String SLASH b) = split_on SLASH a ++ split_on SLASH b.
Proof.
  induction a as [|x a IH]; intro b; [reflexivity|].
  cbn [append split_on]. destruct (Ascii.eqb SLASH x).
  - rewrite IH. reflexivity.
  - rewrite IH. destruct (split_on SLASH a) eqn:E; [exfalso; exact (split_on_nonnil _ _ E)|].
    reflexivity.
Qed.

Lemma split_on_noslash : forall n, has_char SLASH n = false -> split_on SLASH n = [n].
Proof.
  induction n as [|x n IH]; intro H; [reflexivity|].
  cbn [has_char] in H. apply orb_false_iff in H as [H1 H2].
  cbn [split_on]. rewrite H1, IH by exact H2. reflexivity.
Qed.

Lemma split_on_pieces : forall s, Forall (fun x => has_char SLASH x = false) (split_on SLASH s).
Proof.
  induction s as [|x s IH]; [constructor; [reflexivity | constructor]|].
  cbn [split_on]. destruct (Ascii.eqb SLASH x) eqn:E.
  - constructor; [reflexivity | exact IH].
  - destruct (split_on SLASH s) as [|w ws] eqn:Es.
    + exfalso; exact (split_on_nonnil _ _ Es).
    + inversion IH as [|? ? Hw Hws]. constructor; [|exact Hws].
      cbn [has_char]. rewrite E, Hw. reflexivity.
Qed.

Lemma ends_with_split : forall a, ends_with SLASH a = true ->
  exists a', a = (a' ++ String SLASH EmptyString)%string.
Proof.
  induction a as [|x a IH]; intro H; [discriminate|].
  destruct a as [|y a'].
  - change (Ascii.eqb SLASH x = true) in H. apply Ascii.eqb_eq in H. subst x. exists EmptyString. reflexivity.
  - change (ends_with SLASH (String y a') = true) in H.
    destruct (IH H) as [b Hb]. exists (String x b). rewrite Hb. reflexivity.
Qed.

Lemma ends_with_app : forall c a b, is_empty b = false ->
  ends_with c (a ++ b) = ends_with c b.
Proof.
  intros c a b Hb. induction a as [|x a IH]; [reflexivity|].
  cbn [append]. rewrite <- IH. destruct a; simpl.
  - destruct b; [discriminate | reflexivity].
  - reflexivity.
Qed.

Lemma ends_with_noslash : forall n, has_char SLASH n = false -> ends_with SLASH n = false.
Proof.
  induction n as [|x n IH]; intro H; [reflexivity|].
  cbn [has_char] in H. apply orb_false_iff in H as [H1 H2].
  destruct n as [|y n]; [exact H1|]. exact (IH H2).
Qed.

Lemma starts_with_noslash : forall n, has_char SLASH n = false -> starts_with SLASH n = false.
Proof.
  intros [|x n] H; [reflexivity|]. cbn [has_char] in H.
  apply orb_false_iff in H as [H1 _]. exact H1.
Qed.

Lemma starts_with_app : forall c a b, is_empty a = false ->
  starts_with c (a ++ b) = starts_with c a.
Proof. intros c [|x a] b H; [discriminate | reflexivity]. Qed.

Lemma is_empty_app_r : forall a b, is_empty b = false -> is_empty (a ++ b) = false.
Proof. intros [|x a] b H; [exact H | reflexivity]. Qed.

Lemma has_char_app : forall c a b, has_char c (a ++ b) = has_char c a || has_char c b.
Proof.
  intros c a b. induction a as [|x a IH]; [reflexivity|].
  cbn [append has_char]. rewrite IH, orb_assoc. reflexivity.
Qed.

(** Replacing a character by itself is the identity. *)
Lemma replace_from_same : forall c fuel s, String.length s <= fuel ->
  replace_from fuel (String c EmptyString) (String c EmptyString) s = s.
Proof.
  intro c. induction fuel as [|f IH]; intros s Hl.
  - destruct s; [reflexivity | simpl in Hl; lia].
  - destruct s as [|x s]; [reflexivity|]. simpl in Hl.
    cbn [replace_from prefix]. destruct (ascii_dec c x) as [<-|Hx].
    + rewrite NormalizeFacts.prefix_nil. cbn [str_drop String.length append].
      rewrite IH by lia. reflexivity.
    + rewrite IH by lia. reflexivity.
Qed.

End StrFacts.

Module PathFacts.
Import StrFacts.

Lemma valid_name_parts : forall x, valid_name x = true ->
  is_empty x = false /\ has_char SLASH x = false /\ (x =? ".") = false /\ (x =? "..") = false.
Proof.
  intros x H. unfold valid_name in H.
  apply andb_true_iff in H as [H H4]. apply andb_true_iff in H as [H H3].
  apply andb_true_iff in H as [H1 H2].
  apply negb_true_iff in H1, H2, H3, H4. tauto.
Qed.

Lemma eqb_empty_false : forall x, is_empty x = false -> (x =? "") = false.
Proof. intros [|c x] H; [discriminate | reflexivity]. Qed.

Lemma norm_step_empty : forall b acc, norm_step b acc "" = acc.
Proof. reflexivity. Qed.

Lemma norm_step_valid : forall b acc x, valid_name x = true -> norm_step b acc x = x :: acc.
Proof.
  intros b acc x H. destruct (valid_name_parts x H) as (H1 & _ & H3 & H4).
  unfold norm_step. rewrite (eqb_empty_false x H1), H3, H4. reflexivity.
Qed.

Lemma py_join_nonempty : forall a x, is_empty x = false -> is_empty (py_join a x) = false.
Proof.
  intros a x H. unfold py_join.
  destruct (starts_with SLASH x); [exact H|].
  destruct (is_empty a || ends_with SLASH a); apply is_empty_app_r; [exact H | reflexivity].
Qed.

Lemma starts_with_nonempty : forall c a, starts_with c a = true -> is_empty a = false.
Proof. intros c [|x a] H; [discriminate | reflexivity]. Qed.

Lemma starts_with_join_abs : forall a x, starts_with SLASH a = true ->
  starts_with SLASH (py_join a x) = true.
Proof.
  intros a x H. unfold py_join. destruct (starts_with SLASH x) eqn:Ex; [exact Ex|].
  rewrite (starts_with_nonempty _ _ H). cbn [orb].
  destruct (ends_with SLASH a); rewrite starts_with_app by exact (starts_with_nonempty _ _ H);
  exact H.
Qed.

Lemma starts_with_join_rel : forall a x, starts_with SLASH x = false ->
  starts_with SLASH a = false -> starts_with SLASH (py_join a x) = false.
Proof.
  intros a x Hx Ha. unfold py_join. rewrite Hx.
  destruct (is_empty a) eqn:Ea; cbn [orb].
  - destruct a; [exact Hx | discriminate].
  - destruct (ends_with SLASH a); rewrite starts_with_app by exact Ea; exact Ha.
Qed.

(** [split] of [join(a, x)]: the components of [a], then those of [x]
    (a trailing empty component of [a] is dropped by [normpath]). *)
Lemma fold_split_join : forall b a x acc, starts_with SLASH x = false ->
  fold_left (norm_step b) (split_on SLASH (py_join a x)) acc
  = fold_left (norm_step b) (split_on SLASH x)
      (fold_left (norm_step b) (split_on SLASH a) acc).
Proof.
  intros b a x acc Hx. unfold py_join. rewrite Hx.
  destruct (is_empty a) eqn:Ea; cbn [orb].
  - destruct a; [reflexivity | discriminate].
  - destruct (ends_with SLASH a) eqn:Ee.
    + destruct (ends_with_split a Ee) as [a' ->].
      rewrite app_assoc_str. cbn [append].
      rewrite !split_on_app, !fold_left_app. reflexivity.
    + rewrite split_on_app, fold_left_app. reflexivity.
Qed.

Lemma fold_split_valid : forall b acc x, valid_name x = true ->
  fold_left (norm_step b) (split_on SLASH x) acc = x :: acc.
Proof.
  intros b acc x H. destruct (valid_name_parts x H) as (_ & H2 & _).
  rewrite split_on_noslash by exact H2. cbn [fold_left]. apply norm_step_valid, H.
Qed.


Lemma abs_comps_join : forall cwd a x, valid_name x = true ->
  abs_comps cwd (py_join a x) = x :: abs_comps cwd a.
Proof.
  intros cwd a x H. destruct (valid_name_parts x H) as (H1 & H2 & _).
  pose proof (starts_with_noslash x H2) as Hx.
  unfold abs_comps. destruct (starts_with SLASH a) eqn:Ea.
  - rewrite starts_with_join_abs by exact Ea.
    rewrite fold_split_join by exact Hx. apply fold_split_valid, H.
  - rewrite starts_with_join_rel by assumption.
    rewrite fold_split_join by (apply starts_with_join_rel; assumption).
    rewrite fold_split_join by exact Hx.
    rewrite fold_split_valid by exact H.
    rewrite <- fold_split_join by exact Ea. reflexivity.
Qed.

Lemma abs_comps_join_many : forall cwd l a, Forall (fun x => valid_name x = true) l ->
  abs_comps cwd (py_join_many a l) = rev l ++ abs_comps cwd a.
Proof.
  intros cwd l. induction l as [|x l IH]; intros a H; [reflexivity|].
  inversion H as [|? ? Hx Hl]; subst.
  unfold py_join_many. cbn [fold_left]. fold (py_join_many (py_join a x) l).
  rewrite IH by exact Hl. rewrite abs_comps_join by exact Hx.
  cbn [rev]. rewrite <- app_assoc. reflexivity.
Qed.


Lemma fold_norm_good : forall b comps acc,
  Forall good_comp acc -> Forall (fun x => has_char SLASH x = false) comps ->
  Forall good_comp (fold_left (norm_step b) comps acc).
Proof.
  intros b comps. induction comps as [|x comps IH]; intros acc Ha Hc; [exact Ha|].
  inversion Hc as [|? ? Hx Hcs]; subst. cbn [fold_left]. apply IH; [|exact Hcs].
  unfold norm_step. destruct ((x =? "") || (x =? ".")) eqn:E; [exact Ha|].
  apply orb_false_iff in E as [E1 _].
  match goal with |- Forall _ (if ?c then _ else _) => destruct c end.
  - constructor; [|exact Ha]. split; [|exact Hx].
    destruct x; [discriminate | reflexivity].
  - destruct acc as [|y acc]; [constructor | inversion Ha; assumption].
Qed.

Lemma split_concat : forall l, l <> [] -> Forall (fun x => has_char SLASH x = false) l ->
  split_on SLASH (String.concat "/" l) = l.
Proof.
  intro l. induction l as [|x l IH]; intros Hn H; [congruence|].
  inversion H as [|? ? Hx Hl]; subst. destruct l as [|y l].
  - cbn [String.concat]. apply split_on_noslash, Hx.
  - change (String.concat "/" (x :: y :: l)) with (x ++ String SLASH (String.concat "/" (y :: l)))%string.
    rewrite split_on_app, split_on_noslash by exact Hx.
    rewrite IH by (discriminate || exact Hl). reflexivity.
Qed.

Lemma filter_nonempty_good : forall l, Forall good_comp l ->
  filter (fun x => negb (is_empty x)) l = l.
Proof.
  intro l. induction l as [|x l IH]; intro H; [reflexivity|].
  inversion H as [|? ? [Hx _] Hl]; subst. cbn [filter]. rewrite Hx, IH by exact Hl.
  reflexivity.
Qed.

Lemma filter_split_concat : forall l, Forall good_comp l ->
  filter (fun x => negb (is_empty x)) (split_on SLASH (String.concat "/" l)) = l.
Proof.
  intros [|x l] H; [reflexivity|].
  rewrite split_concat by (discriminate || (eapply Forall_impl; [|exact H]; intros y [_ Hy]; exact Hy)).
  apply filter_nonempty_good, H.
Qed.

(** The non-empty components of [normpath] of an absolute path. *)
Lemma normpath_comps : forall y, starts_with SLASH y = true ->
  filter (fun x => negb (is_empty x)) (split_on SLASH (normpath y))
  = rev (fold_left (norm_step true) (split_on SLASH y) []).
Proof.
  intros y H. unfold normpath. rewrite (starts_with_nonempty _ _ H).
  assert (G : Forall good_comp (norm_comps true (split_on SLASH y))).
  { apply Forall_rev, fold_norm_good; [constructor | apply split_on_pieces]. }
  destruct (prefix "//" y && negb (prefix "///" y)); [|rewrite H];
  cbn [Nat.eqb negb]; cbn zeta;
  match goal with |- context [is_empty ?p] =>
    replace (is_empty p) with false by reflexivity end;
  cbn [append split_on]; rewrite ?Ascii.eqb_refl; cbn [filter is_empty negb];
  apply filter_split_concat, G.
Qed.

Lemma abspath_comps : forall cwd s, starts_with SLASH cwd = true ->
  filter (fun x => negb (is_empty x)) (split_on SLASH (abspath cwd s))
  = rev (abs_comps cwd s).
Proof.
  intros cwd s Hc. unfold abspath, abs_comps. apply normpath_comps.
  destruct (starts_with SLASH s) eqn:Es; [exact Es | apply starts_with_join_abs, Hc].
Qed.

Lemma common_prefix_app : forall s l, common_prefix s (s ++ l) = s.
Proof.
  intro s. induction s as [|x s IH]; intro l; [reflexivity|].
  cbn [app common_prefix]. rewrite String.eqb_refl, IH. reflexivity.
Qed.

Lemma skipn_length_app : forall (A : Type) (s l : list A), skipn (List.length s) (s ++ l) = l.
Proof. intros A s. induction s as [|x s IH]; intro l; [reflexivity | exact (IH l)]. Qed.

Lemma ends_with_cons_slash : forall x, is_empty x = false ->
  ends_with SLASH (String SLASH x) = ends_with SLASH x.
Proof. intros [|c x] H; [discriminate | reflexivity]. Qed.

Lemma join_many_concat : forall rs acc, is_empty acc = false -> ends_with SLASH acc = false ->
  Forall (fun x => valid_name x = true) rs ->
  py_join_many acc rs = String.concat "/" (acc :: rs).
Proof.
  intro rs. induction rs as [|x rs IH]; intros acc He Hend H; [reflexivity|].
  inversion H as [|? ? Hx Hrs]; subst.
  destruct (valid_name_parts x Hx) as (X1 & X2 & _).
  unfold py_join_many. cbn [fold_left].
  assert (J : py_join acc x = (acc ++ String SLASH x)%string).
  { unfold py_join. rewrite starts_with_noslash by exact X2. rewrite He, Hend. reflexivity. }
  rewrite J. fold (py_join_many (acc ++ String SLASH x) rs).
  rewrite IH; [| apply is_empty_app_r; reflexivity
             | rewrite ends_with_app by reflexivity; rewrite ends_with_cons_slash by exact X1;
               apply ends_with_noslash, X2
             | exact Hrs].
  destruct rs as [|z rs]; [reflexivity|].
  change (String.concat "/" ((acc ++ String SLASH x)%string :: z :: rs))
    with ((acc ++ String SLASH x) ++ String SLASH (String.concat "/" (z :: rs)))%string.
  rewrite app_assoc_str. reflexivity.
Qed.

(** [relpath(join(top, *l), top)] for valid names [l]. *)
Lemma relpath_join_many : forall cwd top l, starts_with SLASH cwd = true ->
  l <> [] -> Forall (fun x => valid_name x = true) l ->
  relpath cwd (py_join_many top l) top = Some (String.concat "/" l).
Proof.
  intros cwd top l Hc Hn Hl. unfold relpath.
  assert (Ne : is_empty (py_join_many top l) = false).
  { destruct (exists_last Hn) as (l' & x & E). rewrite E in Hl |- *.
    unfold py_join_many. rewrite fold_left_app. cbn [fold_left].
    apply py_join_nonempty. apply Forall_app in Hl as [_ Hx].
    inversion Hx as [|? ? Hx' _]. exact (proj1 (valid_name_parts x Hx')). }
  rewrite Ne. cbv zeta.
  rewrite !abspath_comps by exact Hc.
  rewrite abs_comps_join_many by exact Hl.
  rewrite rev_app_distr, rev_involutive, common_prefix_app, Nat.sub_diag,
    skipn_length_app.
  cbn [repeat app].
  destruct l as [|r rs]; [congruence|].
  inversion Hl as [|? ? Hr Hrs]; subst.
  destruct (valid_name_parts r Hr) as (R1 & R2 & _).
  rewrite join_many_concat; [reflexivity | exact R1 | apply ends_with_noslash, R2 | exact Hrs].
Qed.

End PathFacts.

Module RelPaths.
Import StrFacts PathFacts.

Lemma concat_valid_facts : forall l, l <> [] -> Forall (fun x => valid_name x = true) l ->
  split_on SLASH (String.concat "/" l) = l
  /\ starts_with SLASH (String.concat "/" l) = false
  /\ ~ In ".." (split_on SLASH (String.concat "/" l)).
Proof.
  intros l Hn Hl.
  assert (S : split_on SLASH (String.concat "/" l) = l).
  { apply split_concat; [exact Hn|].
    eapply Forall_impl; [|exact Hl]. intros x Hx. exact (proj1 (proj2 (valid_name_parts x Hx))). }
  split; [exact S|]. split.
  - destruct l as [|r rs]; [congruence|].
    inversion Hl as [|? ? Hr _]; subst. destruct (valid_name_parts r Hr) as (R1 & R2 & _).
    destruct rs as [|z rs]; [apply starts_with_noslash, R2|].
    change (String.concat "/" (r :: z :: rs))
      with (r ++ String SLASH (String.concat "/" (z :: rs)))%string.
    rewrite starts_with_app by exact R1. apply starts_with_noslash, R2.
  - rewrite S. intro Hin. rewrite Forall_forall in Hl.
    pose proof (valid_name_parts _ (Hl _ Hin)) as (_ & _ & _ & E). discriminate.
Qed.

Lemma snoc_not_nil : forall (A : Type) (l : list A) x, l ++ [x] <> [].
Proof. intros A l x E. destruct l; discriminate. Qed.

Lemma py_replace_slash : forall s, py_replace "/" "/" s = s.
Proof. intro s. unfold py_replace. apply replace_from_same. lia. Qed.

Lemma in_dir_files : forall f cs, In f (dir_files cs) <-> In (File f) cs.
Proof.
  intros f cs. unfold dir_files. rewrite in_flat_map. split.
  - intros ([g|m cs'] & Hin & Hf); [destruct Hf as [<-|[]]; exact Hin | destruct Hf].
  - intro H. exists (File f). split; [exact H | left; reflexivity].
Qed.

(** Every directory [os.walk] yields is [join(top, *ns)] for the names [ns]
    leading to it from [top]. *)
Lemma os_walk_sound : forall keep e top root fs f,
  In (root, fs) (os_walk keep top e) -> In f fs ->
  exists ns, root = py_join_many top ns /\ file_at e ns f.
Proof.
  intro keep. induction e as [g|n cs IH] using entry_ind'; intros top root fs f Hw Hf;
  [destruct Hw|].
  rewrite os_walk_dir in Hw. destruct Hw as [E|Hw].
  - injection E as <- <-. exists []. split; [reflexivity|].
    constructor. apply in_dir_files, Hf.
  - apply in_flat_map in Hw as ([g|m cs'] & Hc & Hw); [destruct Hw|].
    destruct (keep m); [|destruct Hw].
    rewrite Forall_forall in IH.
    destruct (IH _ Hc _ _ _ _ Hw Hf) as (ns & -> & Ha).
    exists (m :: ns). split; [reflexivity|]. econstructor; eassumption.
Qed.

(** Conversely, every file under directories the filter keeps is yielded. *)
Lemma os_walk_complete : forall keep e ns f top, file_at e ns f ->
  Forall (fun d => keep d = true) ns ->
  exists fs, In (py_join_many top ns, fs) (os_walk keep top e) /\ In f fs.
Proof.
  intros keep e ns f top H. revert top.
  induction H as [n cs f Hin | n cs m cs' ns f Hin Ha IH]; intros top Hk.
  - exists (dir_files cs). rewrite os_walk_dir. split; [left; reflexivity|].
    apply in_dir_files, Hin.
  - inversion Hk as [|? ? Hm Hns]; subst.
    destruct (IH (py_join top m) Hns) as (fs & Hw & Hf).
    exists fs. split; [|exact Hf]. rewrite os_walk_dir. right.
    apply in_flat_map. exists (Dir m cs'). split; [exact Hin|]. rewrite Hm. exact Hw.
Qed.

Lemma file_at_valid : forall e ns f, file_at e ns f -> wf_tree e = true ->
  Forall (fun x => valid_name x = true) (ns ++ [f_name f]).
Proof.
  intros e ns f H. induction H as [n cs f Hin | n cs m cs' ns f Hin Ha IH]; intro Hw;
  cbn [wf_tree] in Hw; rewrite forallb_forall in Hw.
  - constructor; [|constructor]. pose proof (Hw _ Hin) as E.
    apply andb_true_iff in E as [E _]. exact E.
  - pose proof (Hw _ Hin) as E. apply andb_true_iff in E as [E1 E2].
    constructor; [exact E1 | apply IH, E2].
Qed.

Section Records.

Variable fnmatch : string -> string -> bool.
Variable script_name : string.
Variable decode_utf8 : list byte -> string.
Variable cwd : string.
Variable input_dir : string.
Variable ignore_patterns : list string.
Variable include_content : bool.
Variable max_size : Z.

Local Abbreviation from_walk' := (from_walk decode_utf8 cwd input_dir include_content max_size).

Lemma get_file_info_ok_path : forall fp f r,
  get_file_info decode_utf8 cwd fp input_dir f include_content max_size = Ok r ->
  exists rp, relpath cwd fp input_dir = Some rp /\ fi_path r = py_replace "/" "/" rp.
Proof.
  intros fp f r H. unfold get_file_info in H.
  destruct (f_fault f); [discriminate|].
  destruct (relpath cwd fp input_dir) as [rp|]; [|discriminate].
  exists rp. split; [reflexivity|].
  destruct include_content; [|injection H as <-; reflexivity].
  destruct (f_data f) as [bs|m]; [|injection H as <-; reflexivity].
  destruct (is_text_file (Readable bs) 8192); injection H as <-; reflexivity.
Qed.

Lemma get_file_info_path_ok : forall fp f rp, f_fault f = None ->
  relpath cwd fp input_dir = Some rp ->
  exists r, get_file_info decode_utf8 cwd fp input_dir f include_content max_size = Ok r
            /\ fi_path r = py_replace "/" "/" rp.
Proof.
  intros fp f rp Hf Hr. unfold get_file_info. rewrite Hf, Hr.
  destruct include_content; [|eexists; split; reflexivity].
  destruct (f_data f) as [bs|m]; [|eexists; split; reflexivity].
  destruct (is_text_file (Readable bs) 8192); eexists; split; reflexivity.
Qed.


Lemma process_file_files : forall root f snap snap',
  process_file fnmatch script_name decode_utf8 cwd input_dir ignore_patterns
    include_content max_size root f snap = Ok snap' ->
  (forall r, In r (files snap) -> In r (files snap'))
  /\ (forall r, In r (files snap') -> In r (files snap)
        \/ get_file_info decode_utf8 cwd (py_join root (f_name f)) input_dir f
             include_content max_size = Ok r)
  /\ (skipped fnmatch script_name ignore_patterns f = false ->
      forall r, get_file_info decode_utf8 cwd (py_join root (f_name f)) input_dir f
                  include_content max_size = Ok r -> In r (files snap')).
Proof.
  intros root f snap snap' H. unfold process_file in H. unfold skipped.
  destruct (matches_any fnmatch ignore_patterns (f_name f)) eqn:E1.
  { injection H as <-. split; [tauto | split; [tauto | discriminate]]. }
  destruct ((f_name f =? script_name) || (f_name f =? output_name)) eqn:E2.
  { injection H as <-. split; [tauto | split; [tauto | cbn [orb]; rewrite E2; discriminate]]. }
  destruct (get_file_info decode_utf8 cwd (py_join root (f_name f)) input_dir f
              include_content max_size) as [fi|m] eqn:Eg.
  - injection H as <-. cbn [files]. split; [|split].
    + intros r Hr. apply in_or_app. left. exact Hr.
    + intros r Hr. apply in_app_or in Hr as [Hr|[<-|[]]]; [left; exact Hr | right; reflexivity].
    + intros _ r Hr. injection Hr as <-. apply in_or_app. right. left. reflexivity.
  - destruct (relpath cwd (py_join root (f_name f)) input_dir); [|discriminate].
    injection H as <-. cbn [files]. split; [tauto | split; [tauto|]].
    intros _ r Hr. discriminate.
Qed.

Lemma process_files_files : forall root fs snap snap',
  process_files fnmatch script_name decode_utf8 cwd input_dir ignore_patterns
    include_content max_size root fs snap = Ok snap' ->
  (forall r, In r (files snap) -> In r (files snap'))
  /\ (forall r, In r (files snap') -> In r (files snap) \/ from_walk' [(root, fs)] r)
  /\ (forall f r, In f fs -> skipped fnmatch script_name ignore_patterns f = false ->
      get_file_info decode_utf8 cwd (py_join root (f_name f)) input_dir f
        include_content max_size = Ok r -> In r (files snap')).
Proof.
  intros root fs. induction fs as [|f fs IH]; intros snap snap' H; cbn [process_files] in H.
  - injection H as <-. split; [tauto | split; [tauto | intros f r []]].
  - destruct (process_file fnmatch script_name decode_utf8 cwd input_dir ignore_patterns
                include_content max_size root f snap) as [s1|m] eqn:E1; [|discriminate].
    destruct (process_file_files _ _ _ _ E1) as (A1 & B1 & C1).
    destruct (IH _ _ H) as (A2 & B2 & C2).
    split; [|split].
    + intros r Hr. apply A2, A1, Hr.
    + intros r Hr. destruct (B2 r Hr) as [Hr1|(root' & fs' & g & [Ew|[]] & Hg & Eg)].
      * destruct (B1 r Hr1) as [Hr0|Eg]; [left; exact Hr0|].
        right. exists root, (f :: fs), f. split; [left; reflexivity|]. split; [left; reflexivity|].
        exact Eg.
      * injection Ew as Ew1 Ew2; subst root' fs'. right. exists root, (f :: fs), g.
        split; [left; reflexivity|]. split; [right; exact Hg | exact Eg].
    + intros g r [<-|Hg] Hs Eg; [apply A2, (C1 Hs r Eg) | exact (C2 g r Hg Hs Eg)].
Qed.

Lemma process_walk_files : forall w snap snap',
  process_walk fnmatch script_name decode_utf8 cwd input_dir ignore_patterns
    include_content max_size w snap = Ok snap' ->
  (forall r, In r (files snap') -> In r (files snap) \/ from_walk' w r)
  /\ (forall root fs f r, In (root, fs) w -> In f fs ->
      skipped fnmatch script_name ignore_patterns f = false ->
      get_file_info decode_utf8 cwd (py_join root (f_name f)) input_dir f
        include_content max_size = Ok r -> In r (files snap')).
Proof.
  intro w. induction w as [|[root fs] w IH]; intros snap snap' H; cbn [process_walk] in H.
  - injection H as <-. split; [tauto | intros root fs f r []].
  - destruct (process_files fnmatch script_name decode_utf8 cwd input_dir ignore_patterns
                include_content max_size root fs snap) as [s1|m] eqn:E1; [|discriminate].
    destruct (process_files_files _ _ _ _ E1) as (A1 & B1 & C1).
    destruct (IH _ _ H) as (B2 & C2).
    assert (M : forall r, In r (files s1) -> In r (files snap')).
    { clear - H. revert s1 H. induction w as [|[root' fs'] w IHw]; intros s1 H;
      cbn [process_walk] in H; [injection H as <-; tauto|].
      destruct (process_files fnmatch script_name decode_utf8 cwd input_dir ignore_patterns
                  include_content max_size root' fs' s1) as [s2|m] eqn:E2; [|discriminate].
      intros r Hr. apply (IHw s2 H), (proj1 (process_files_files _ _ _ _ E2)), Hr. }
    split.
    + intros r Hr. destruct (B2 r Hr) as [Hr1|(root' & fs' & g & Hw & Hg & Eg)].
      * destruct (B1 r Hr1) as [Hr0|(root' & fs' & g & [Ew|[]] & Hg & Eg)]; [left; exact Hr0|].
        right. exists root', fs', g. split; [left; exact Ew | split; assumption].
      * right. exists root', fs', g. split; [right; exact Hw | split; assumption].
    + intros root' fs' f r [Ew|Hw] Hf Hs Eg.
      * injection Ew as Ew1 Ew2; subst root' fs'. apply M, (C1 f r Hf Hs Eg).
      * exact (C2 root' fs' f r Hw Hf Hs Eg).
Qed.

End Records.

End RelPaths.

(** Facts about the walk on any host. *)
Module HostFacts.
Import StrFacts.

Section Walk.
Variable join : string -> string -> string.

Lemma host_os_walk_dir : forall keep top n cs,
  Host.os_walk join keep top (Dir n cs)
  = (top, dir_files cs)
    :: flat_map (fun c => match c with
                          | Dir m _ => if keep m then Host.os_walk join keep (join top m) c else []
                          | File _ => []
                          end) cs.
Proof.
  intros keep top n cs. cbn [Host.os_walk]. f_equal.
  induction cs as [|[f|m cs'] cs IH]; simpl; [reflexivity | exact IH |].
  rewrite IH. reflexivity.
Qed.

(** Every directory [os.walk] yields is [top] joined with the names [ns]
    leading to it. *)
Lemma host_os_walk_sound : forall keep e top root fs f,
  In (root, fs) (Host.os_walk join keep top e) -> In f fs ->
  exists ns, root = fold_left join ns top /\ file_at e ns f.
Proof.
  intro keep. induction e as [g|n cs IH] using entry_ind'; intros top root fs f Hw Hf;
  [destruct Hw|].
  rewrite host_os_walk_dir in Hw. destruct Hw as [E|Hw].
  - injection E as <- <-. exists []. split; [reflexivity|].
    constructor. apply RelPaths.in_dir_files, Hf.
  - apply in_flat_map in Hw as ([g|m cs'] & Hc & Hw); [destruct Hw|].
    destruct (keep m); [|destruct Hw].
    rewrite Forall_forall in IH.
    destruct (IH _ Hc _ _ _ _ Hw Hf) as (ns & -> & Ha).
    exists (m :: ns). split; [reflexivity|]. econstructor; eassumption.
Qed.

End Walk.

Lemma host_get_file_info_ok_path : forall dec sep rel fp bp f ic ms r,
  Host.get_file_info dec sep rel fp bp f ic ms = Ok r ->
  exists rp, rel fp bp = Ok rp /\ fi_path r = py_replace (String sep EmptyString) "/" rp.
Proof.
  intros dec sep rel fp bp f ic ms r H. unfold Host.get_file_info in H.
  destruct (f_fault f); [discriminate|].
  destruct (rel fp bp) as [rp|m]; [|discriminate].
  exists rp. split; [reflexivity|].
  destruct ic; [|injection H as <-; reflexivity].
  destruct (f_data f) as [bs|m]; [|injection H as <-; reflexivity].
  destruct (is_text_file (Readable bs) 8192); injection H as <-; reflexivity.
Qed.

Section Records.

Variable fnmatch : string -> string -> bool.
Variable script_name : string.
Variable decode_utf8 : list byte -> string.
Variable sep : ascii.
Variable join : string -> string -> string.
Variable rel : string -> string -> res string.
Variable input_dir : string.
Variable ignore_patterns : list string.
Variable include_content : bool.
Variable max_size : Z.

Local Abbreviation info fp f :=
  (Host.get_file_info decode_utf8 sep rel fp input_dir f include_content max_size).

Lemma host_process_file_files : forall root f snap snap',
  Host.process_file fnmatch script_name decode_utf8 sep join rel input_dir ignore_patterns
    include_content max_size root f snap = Ok snap' ->
  forall r, In r (files snap') -> In r (files snap) \/ info (join root (f_name f)) f = Ok r.
Proof.
  intros root f snap snap' H r Hr. unfold Host.process_file in H.
  destruct (matches_any fnmatch ignore_patterns (f_name f)); [injection H as <-; left; exact Hr|].
  destruct ((f_name f =? script_name) || (f_name f =? output_name));
    [injection H as <-; left; exact Hr|].
  destruct (info (join root (f_name f)) f) as [fi|m] eqn:Eg.
  - injection H as <-. cbn [files] in Hr.
    apply in_app_or in Hr as [Hr|[<-|[]]]; [left; exact Hr | right; reflexivity].
  - destruct (rel (join root (f_name f)) input_dir); [|discriminate].
    injection H as <-. left. exact Hr.
Qed.

Lemma host_process_files_files : forall root fs snap snap',
  Host.process_files fnmatch script_name decode_utf8 sep join rel input_dir ignore_patterns
    include_content max_size root fs snap = Ok snap' ->
  forall r, In r (files snap') ->
  In r (files snap) \/ exists f, In f fs /\ info (join root (f_name f)) f = Ok r.
Proof.
  intros root fs. induction fs as [|f fs IH]; intros snap snap' H r Hr;
    cbn [Host.process_files] in H.
  - injection H as <-. left. exact Hr.
  - destruct (Host.process_file fnmatch script_name decode_utf8 sep join rel input_dir
                ignore_patterns include_content max_size root f snap) as [s1|m] eqn:E1;
      [|discriminate].
    destruct (IH _ _ H r Hr) as [Hr1|(g & Hg & Eg)].
    + destruct (host_process_file_files _ _ _ _ E1 r Hr1) as [Hr0|Eg]; [left; exact Hr0|].
      right. exists f. split; [left; reflexivity | exact Eg].
    + right. exists g. split; [right; exact Hg | exact Eg].
Qed.

Lemma host_process_walk_files : forall w snap snap',
  Host.process_walk fnmatch script_name decode_utf8 sep join rel input_dir ignore_patterns
    include_content max_size w snap = Ok snap' ->
  forall r, In r (files snap') ->
  In r (files snap)
  \/ exists root fs f, In (root, fs) w /\ In f fs /\ info (join root (f_name f)) f = Ok r.
Proof.
  intro w. induction w as [|[root fs] w IH]; intros snap snap' H r Hr;
    cbn [Host.process_walk] in H.
  - injection H as <-. left. exact Hr.
  - destruct (Host.process_files fnmatch script_name decode_utf8 sep join rel input_dir
                ignore_patterns include_content max_size root fs snap) as [s1|m] eqn:E1;
      [|discriminate].
    destruct (IH _ _ H r Hr) as [Hr1|(root' & fs' & g & Hw & Hg & Eg)].
    + destruct (host_process_files_files _ _ _ _ E1 r Hr1) as [Hr0|(g & Hg & Eg)];
        [left; exact Hr0|].
      right. exists root, fs, g. split; [left; reflexivity | split; assumption].
    + right. exists root', fs', g. split; [right; exact Hw | split; assumption].
Qed.

End Records.

(** [str.replace] of a one-character string. *)
Lemma replace_from_char : forall c new fuel s, String.length s <= fuel ->
  replace_from fuel (String c EmptyString) new s = repl_char c new s.
Proof.
  intros c new. induction fuel as [|f IH]; intros s Hl.
  - destruct s; [reflexivity | simpl in Hl; lia].
  - destruct s as [|x s]; [reflexivity|]. simpl in Hl.
    cbn [replace_from prefix repl_char]. destruct (ascii_dec c x) as [<-|Hx].
    + rewrite NormalizeFacts.prefix_nil, Ascii.eqb_refl. cbn [str_drop String.length].
      rewrite IH by lia. reflexivity.
    + replace (Ascii.eqb c x) with false by (symmetry; apply Ascii.eqb_neq; exact Hx).
      rewrite IH by lia. reflexivity.
Qed.

Lemma repl_char_free : forall c new s, has_char c s = false -> repl_char c new s = s.
Proof.
  intros c new s. induction s as [|x s IH]; intro H; [reflexivity|].
  cbn [has_char] in H. apply orb_false_iff in H as [H1 H2].
  cbn [repl_char]. rewrite H1, IH by exact H2. reflexivity.
Qed.

Lemma repl_char_app : forall c new a b,
  repl_char c new (a ++ b) = (repl_char c new a ++ repl_char c new b)%string.
Proof.
  intros c new a b. induction a as [|x a IH]; [reflexivity|].
  cbn [append repl_char]. rewrite IH. destruct (Ascii.eqb c x); [|reflexivity].
  symmetry. apply app_assoc_str.
Qed.

(** Names without [os.sep] joined by [os.sep], with [os.sep] replaced by
    [/], are the names joined by [/]. *)
Lemma replace_concat : forall c l, Forall (fun x => has_char c x = false) l ->
  py_replace (String c EmptyString) "/" (String.concat (String c EmptyString) l)
  = String.concat "/" l.
Proof.
  intros c l H. unfold py_replace. rewrite replace_from_char by lia.
  induction H as [|x l Hx Hl IH]; [reflexivity|].
  destruct l as [|y l].
  - apply repl_char_free, Hx.
  - change (String.concat (String c EmptyString) (x :: y :: l))
      with (x ++ String c (String.concat (String c EmptyString) (y :: l)))%string.
    change (String.concat "/" (x :: y :: l))
      with (x ++ String SLASH (String.concat "/" (y :: l)))%string.
    rewrite repl_char_app, repl_char_free by exact Hx. cbn [repl_char].
    rewrite Ascii.eqb_refl, IH. reflexivity.
Qed.

Lemma file_at_sep_free : forall c e ns f, file_at e ns f -> sep_free c e = true ->
  Forall (fun x => has_char c x = false) (ns ++ [f_name f]).
Proof.
  intros c e ns f H. induction H as [n cs f Hin | n cs m cs' ns f Hin Ha IH]; intro Hs;
  cbn [sep_free] in Hs; rewrite forallb_forall in Hs.
  - constructor; [|constructor]. pose proof (Hs _ Hin) as E.
    apply andb_true_iff in E as [E _]. apply negb_true_iff, E.
  - pose proof (Hs _ Hin) as E. apply andb_true_iff in E as [E1 E2].
    constructor; [apply negb_true_iff, E1 | apply IH, E2].
Qed.

(** POSIX meets the hypothesis of C6: with an absolute working directory,
    [posixpath.relpath] gives back the names of every file of a tree of
    valid names joined by [/]. *)
Lemma posix_rel_law : forall cwd input_dir e,
  starts_with SLASH cwd = true -> wf_tree e = true ->
  forall ns f, file_at e ns f ->
  Host.posix_rel cwd (fold_left py_join (ns ++ [f_name f]) input_dir) input_dir
  = Ok (String.concat (String SLASH EmptyString) (ns ++ [f_name f])).
Proof.
  intros cwd input_dir e Hc Hwf ns f Ha. unfold Host.posix_rel.
  change (fold_left py_join (ns ++ [f_name f]) input_dir)
    with (py_join_many input_dir (ns ++ [f_name f])).
  rewrite PathFacts.relpath_join_many;
    [reflexivity | exact Hc | apply RelPaths.snoc_not_nil | exact (RelPaths.file_at_valid _ _ _ Ha Hwf)].
Qed.

(** The model of [Program] is the POSIX instance of the host model. *)
Lemma posix_instance : forall fn sc dec cwd input_dir top pats ic ms is,
  Host.generate_snapshot fn sc dec SLASH py_join (Host.posix_rel cwd) input_dir top pats ic ms is
  = generate_snapshot fn sc dec cwd input_dir top pats ic ms is.
Proof.
  intros fn sc dec cwd input_dir top pats ic ms is.
  assert (G : forall fp f, Host.get_file_info dec SLASH (Host.posix_rel cwd) fp input_dir f ic ms
                           = get_file_info dec cwd fp input_dir f ic ms).
  { intros fp f. unfold Host.get_file_info, get_file_info, Host.posix_rel.
    destruct (f_fault f); [reflexivity|]. destruct (relpath cwd fp input_dir); reflexivity. }
  assert (P : forall root f snap,
      Host.process_file fn sc dec SLASH py_join (Host.posix_rel cwd) input_dir pats ic ms root f snap
      = process_file fn sc dec cwd input_dir pats ic ms root f snap).
  { intros root f snap. unfold Host.process_file, process_file. rewrite G.
    destruct (get_file_info dec cwd (py_join root (f_name f)) input_dir f ic ms); [reflexivity|].
    unfold Host.posix_rel. destruct (relpath cwd (py_join root (f_name f)) input_dir); reflexivity. }
  assert (PW : forall w snap,
      Host.process_walk fn sc dec SLASH py_join (Host.posix_rel cwd) input_dir pats ic ms w snap
      = process_walk fn sc dec cwd input_dir pats ic ms w snap).
  { intro w. induction w as [|[root fs] w IH]; intro snap; [reflexivity|].
    cbn [Host.process_walk process_walk].
    assert (PF : forall fs snap,
        Host.process_files fn sc dec SLASH py_join (Host.posix_rel cwd) input_dir pats ic ms root fs snap
        = process_files fn sc dec cwd input_dir pats ic ms root fs snap).
    { intro fs'. induction fs' as [|f fs' IHf]; intro s0; [reflexivity|].
      cbn [Host.process_files process_files]. rewrite P.
      destruct (process_file fn sc dec cwd input_dir pats ic ms root f s0); [apply IHf | reflexivity]. }
    rewrite PF. destruct (process_files fn sc dec cwd input_dir pats ic ms root fs snap);
      [apply IH | reflexivity]. }
  unfold Host.generate_snapshot, generate_snapshot.
  destruct top as [e|]; [|reflexivity].
  rewrite PW. reflexivity.
Qed.

Lemma prefix_app : forall s t, prefix s (s ++ t) = true.
Proof.
  induction s as [|c s IH]; intro t; [apply NormalizeFacts.prefix_nil|].
  cbn [append prefix]. destruct (ascii_dec c c) as [_|n]; [apply IH | congruence].
Qed.

Lemma str_drop_app : forall s t, str_drop (String.length s) (s ++ t) = t.
Proof. induction s as [|c s IH]; intro t; [reflexivity | exact (IH t)]. Qed.

Lemma fold_bs_join : forall l d, l <> [] ->
  fold_left Host.bs_join l d
  = (d ++ String Host.BSLASH (String.concat (String Host.BSLASH EmptyString) l))%string.
Proof.
  induction l as [|x l IH]; intros d Hn; [congruence|].
  destruct l as [|y l]; [reflexivity|].
  change (fold_left Host.bs_join (x :: y :: l) d)
    with (fold_left Host.bs_join (y :: l) (Host.bs_join d x)).
  rewrite IH by discriminate. unfold Host.bs_join.
  rewrite app_assoc_str. reflexivity.
Qed.

(** The backslash sample host meets the hypothesis of C6 for any names. *)
Lemma bs_rel_join : forall d l, l <> [] ->
  Host.bs_rel (fold_left Host.bs_join l d) d
  = Ok (String.concat (String Host.BSLASH EmptyString) l).
Proof.
  intros d l Hn. rewrite fold_bs_join by exact Hn. unfold Host.bs_rel.
  replace (d ++ String Host.BSLASH (String.concat (String Host.BSLASH EmptyString) l))%string
    with ((d ++ String Host.BSLASH EmptyString)
          ++ String.concat (String Host.BSLASH EmptyString) l)%string
    by (rewrite app_assoc_str; reflexivity).
  rewrite prefix_app, str_drop_app. reflexivity.
Qed.

End HostFacts.

(** C6: on any host, whatever its [os.sep] ([sep]) and its [os.path.join]
    ([join]) and [os.path.relpath] ([rel]), as long as [relpath] gives back,
    for the path [os.walk] builds for a file, the names leading from the
    scanned root to the file joined by [os.sep] (as [posixpath] does, see
    [HostFacts.posix_rel_law]), and no name contains [os.sep]: every record
    in ["files"] has as [path] those names joined by [/]; splitting it on
    [/] gives back exactly those names, so it does not start with [/] and
    has no [..] component. *)
Theorem generate_snapshot_relative_paths :
  forall fnmatch script_name decode sep join rel input_dir e ignore_patterns
         include_content max_size include_structure snap r,
  (forall ns f, file_at e ns f ->
     rel (fold_left join (ns ++ [f_name f]) input_dir) input_dir
     = Ok (String.concat (String sep EmptyString) (ns ++ [f_name f]))) ->
  wf_tree e = true ->
  sep_free sep e = true ->
  Host.generate_snapshot fnmatch script_name decode sep join rel input_dir (Some e)
    ignore_patterns include_content max_size include_structure = Ok snap ->
  In r (files snap) ->
  exists ns f, file_at e ns f
    /\ fi_path r = String.concat "/" (ns ++ [f_name f])
    /\ split_on SLASH (fi_path r) = ns ++ [f_name f]
    /\ starts_with SLASH (fi_path r) = false
    /\ ~ In ".." (split_on SLASH (fi_path r)).
Proof.
  intros fn sc dec sep join rel input_dir e pats ic ms is snap r Hrel Hwf Hsf H Hr.
  unfold Host.generate_snapshot in H.
  destruct (HostFacts.host_process_walk_files fn sc dec sep join rel input_dir pats ic ms
              _ _ _ H r Hr) as [[]|(root & fs & f & Hw & Hf & Eg)].
  destruct (HostFacts.host_os_walk_sound join _ _ _ _ _ _ Hw Hf) as (ns & -> & Ha).
  destruct (HostFacts.host_get_file_info_ok_path _ _ _ _ _ _ _ _ _ Eg) as (rp & Erp & Ep).
  assert (Hj : join (fold_left join ns input_dir) (f_name f)
               = fold_left join (ns ++ [f_name f]) input_dir)
    by (rewrite fold_left_app; reflexivity).
  rewrite Hj, (Hrel ns f Ha) in Erp. injection Erp as <-.
  rewrite HostFacts.replace_concat in Ep by exact (HostFacts.file_at_sep_free _ _ _ _ Ha Hsf).
  exists ns, f. split; [exact Ha|]. split; [exact Ep|]. rewrite Ep.
  apply RelPaths.concat_valid_facts;
    [apply RelPaths.snoc_not_nil | exact (RelPaths.file_at_valid _ _ _ Ha Hwf)].
Qed.

(** C10: the exclusion of lines 84-85 tests the fixed name
    [directory_snapshot.json], not the [-o] value: a file below the root
    whose name is the configured output name, different from that name and
    from the script's, unmatched by the ignore patterns and under
    directories no pattern prunes, gets a record, and the structure filter
    keeps it. *)
Theorem main_snapshot_keeps_configured_output :
  forall fnmatch script_name decode cwd a e snap ns f,
  starts_with SLASH cwd = true ->
  wf_tree e = true ->
  main_snapshot fnmatch script_name decode cwd a (Some e) = Ok snap ->
  file_at e ns f ->
  f_name f = a_output a ->
  f_fault f = None ->
  a_output a <> output_name ->
  a_output a <> script_name ->
  matches_any fnmatch (a_ignore a) (a_output a) = false ->
  Forall (fun d => matches_any fnmatch (a_ignore a) d = false) ns ->
  (exists r, In r (files snap) /\ fi_path r = String.concat "/" (ns ++ [a_output a]))
  /\ retained fnmatch script_name (a_ignore a) (File f) = true.
Proof.
  intros fn sc dec cwd a e snap ns f Hc Hwf H Ha Hn Hf Ho Hs Hm Hns.
  unfold main_snapshot, generate_snapshot in H.
  destruct (RelPaths.process_walk_files fn sc dec cwd (a_input a) (a_ignore a)
              (negb (a_no_content a)) (a_max_size a) _ _ _ H) as [_ C].
  destruct (RelPaths.os_walk_complete (fun d => negb (matches_any fn (a_ignore a) d))
              e ns f (a_input a) Ha) as (fs & Hw & Hfs).
  { eapply Forall_impl; [|exact Hns]. intros d Hd. rewrite Hd. reflexivity. }
  pose proof (RelPaths.file_at_valid _ _ _ Ha Hwf) as Hv.
  assert (Hj : py_join (py_join_many (a_input a) ns) (f_name f)
               = py_join_many (a_input a) (ns ++ [f_name f])).
  { unfold py_join_many. rewrite fold_left_app. reflexivity. }
  assert (Hrel : relpath cwd (py_join (py_join_many (a_input a) ns) (f_name f)) (a_input a)
                 = Some (String.concat "/" (ns ++ [f_name f]))).
  { rewrite Hj. apply PathFacts.relpath_join_many; [exact Hc | apply RelPaths.snoc_not_nil | exact Hv]. }
  destruct (RelPaths.get_file_info_path_ok dec cwd (a_input a) (negb (a_no_content a))
              (a_max_size a) _ _ _ Hf Hrel) as (r & Eg & Ep).
  assert (Hsk : skipped fn sc (a_ignore a) f = false).
  { unfold skipped. rewrite Hn, Hm. cbn [orb].
    apply orb_false_iff. split; apply String.eqb_neq; assumption. }
  split.
  - exists r. split; [exact (C _ _ _ _ Hw Hfs Hsk Eg)|].
    rewrite Ep, RelPaths.py_replace_slash, Hn. reflexivity.
  - unfold retained. cbn [entry_name]. rewrite Hn, Hm.
    apply (proj2 (String.eqb_neq _ _)) in Ho, Hs. rewrite Ho, Hs. reflexivity.
Qed.

(** The separator replace at work: on the backslash sample host, [relpath]
    gives [src\m.py] and the record's path is [src/m.py]. *)
Lemma generate_snapshot_relative_paths_witness :
  Host.generate_snapshot Glob.fnmatch "snapshot.py" Glob.ascii_decode Host.BSLASH
    Host.bs_join Host.bs_rel "proj" (Some Samples.nested) Samples.default_ignore true 1048576
    false
  = Ok {| file_structure := None;
          files := [{| fi_path := "a.txt"; fi_content := Some "hi"; fi_error := None |};
                    {| fi_path := "src/m.py"; fi_content := Some "x"; fi_error := None |}];
          errors := None |}
  /\ exists ns f, file_at Samples.nested ns f
       /\ "src/m.py" = String.concat "/" (ns ++ [f_name f])
       /\ split_on SLASH "src/m.py" = ns ++ [f_name f]
       /\ starts_with SLASH "src/m.py" = false
       /\ ~ In ".." (split_on SLASH "src/m.py").
Proof.
  split; [vm_compute; reflexivity|].
  exact (generate_snapshot_relative_paths Glob.fnmatch "snapshot.py" Glob.ascii_decode
    Host.BSLASH Host.bs_join Host.bs_rel "proj" Samples.nested Samples.default_ignore true
    1048576 false
    {| file_structure := None;
       files := [{| fi_path := "a.txt"; fi_content := Some "hi"; fi_error := None |};
                 {| fi_path := "src/m.py"; fi_content := Some "x"; fi_error := None |}];
       errors := None |}
    {| fi_path := "src/m.py"; fi_content := Some "x"; fi_error := None |}
    (fun ns f _ => HostFacts.bs_rel_join "proj" (ns ++ [f_name f])
                     (RelPaths.snoc_not_nil _ ns (f_name f)))
    ltac:(vm_compute; reflexivity) ltac:(vm_compute; reflexivity)
    ltac:(vm_compute; reflexivity) ltac:(right; left; reflexivity)).
Defined.

Lemma main_snapshot_keeps_configured_output_witness :
  main_snapshot Glob.fnmatch "snapshot.py" Glob.ascii_decode "/home/u" Samples.args_out
    (Some Samples.with_old_output)
  = Ok {| file_structure := None;
          files := [{| fi_path := "build/out.json"; fi_content := Some "{}";
                       fi_error := None |}];
          errors := None |}
  /\ (exists r, In r [{| fi_path := "build/out.json"; fi_content := Some "{}";
                         fi_error := None |}]
                /\ fi_path r = String.concat "/" (["build"] ++ ["out.json"]))
  /\ retained Glob.fnmatch "snapshot.py" Samples.default_ignore (File Samples.old_output) = true.
Proof.
  split; [vm_compute; reflexivity|].
  exact (main_snapshot_keeps_configured_output Glob.fnmatch "snapshot.py" Glob.ascii_decode
    "/home/u" Samples.args_out Samples.with_old_output
    {| file_structure := None;
       files := [{| fi_path := "build/out.json"; fi_content := Some "{}";
                    fi_error := None |}];
       errors := None |}
    ["build"] Samples.old_output
    eq_refl ltac:(vm_compute; reflexivity) ltac:(vm_compute; reflexivity)
    ltac:(econstructor; [left; reflexivity | constructor; left; reflexivity])
    eq_refl eq_refl ltac:(discriminate) ltac:(discriminate)
    ltac:(vm_compute; reflexivity) ltac:(repeat constructor)).
Defined.

(** ** Further properties of the normalizer *)

Module NormalizeMore.

Lemma ends_with_cons : forall c x s,
  ends_with c (String x s) = match s with EmptyString => Ascii.eqb c x | _ => ends_with c s end.
Proof. intros c x [|y s]; reflexivity. Qed.

Lemma spec_normalize_app : forall n a b, String.length a <= n ->
  ends_with CR a = false ->
  spec_normalize (a ++ b) = (spec_normalize a ++ spec_normalize b)%string.
Proof.
  induction n as [|n IH]; intros a b Hl He.
  - destruct a; [reflexivity | simpl in Hl; lia].
  - destruct a as [|c a']; [reflexivity|]. cbn [String.length] in Hl.
    rewrite ends_with_cons in He.
    cbn [append spec_normalize].
    destruct (Ascii.eqb c CR) eqn:Ec.
    + destruct a' as [|d a''].
      * apply Ascii.eqb_eq in Ec. subst c. rewrite Ascii.eqb_refl in He. discriminate.
      * cbn [append]. cbn [String.length] in Hl.
        destruct (Ascii.eqb d LF) eqn:Ed.
        -- rewrite ends_with_cons in He.
           rewrite IH; [reflexivity | lia | destruct a''; [reflexivity | exact He]].
        -- change (String d (a'' ++ b)) with (String d a'' ++ b)%string.
           rewrite IH; [reflexivity | cbn [String.length]; lia | exact He].
    + rewrite IH; [reflexivity | lia | destruct a'; [reflexivity | exact He]].
Qed.

Lemma spec_normalize_cons : forall c s',
  spec_normalize (String c s') =
  if Ascii.eqb c CR then
    match s' with
    | String d s'' =>
        if Ascii.eqb d LF then String LF (spec_normalize s'')
        else String LF (spec_normalize s')
    | EmptyString => String LF EmptyString
    end
  else String c (spec_normalize s').
Proof. reflexivity. Qed.

Lemma crlf_count_cons : forall c s',
  crlf_count (String c s') =
  (if Ascii.eqb c CR
   then match s' with String d _ => if Ascii.eqb d LF then 1 else 0 | EmptyString => 0 end
   else 0) + crlf_count s'.
Proof. reflexivity. Qed.

Lemma spec_normalize_py_len : forall n s, String.length s <= n ->
  py_len (spec_normalize s) + crlf_count s = py_len s.
Proof.
  induction n as [|n IH]; intros s Hl.
  - destruct s; [reflexivity | simpl in Hl; lia].
  - destruct s as [|c s']; [reflexivity|]. cbn [String.length] in Hl.
    rewrite spec_normalize_cons, crlf_count_cons.
    destruct (Ascii.eqb c CR) eqn:Ec.
    + apply Ascii.eqb_eq in Ec. subst c.
      destruct s' as [|d s'']; [reflexivity|]. cbn [String.length] in Hl.
      destruct (Ascii.eqb d LF) eqn:Ed.
      * apply Ascii.eqb_eq in Ed. subst d. rewrite crlf_count_cons.
        change (py_len (String LF (spec_normalize s'')))
          with (1 + py_len (spec_normalize s'')).
        change (py_len (String CR (String LF s''))) with (1 + (1 + py_len s'')).
        change (Ascii.eqb LF CR) with false. cbn iota.
        pose proof (IH s'' ltac:(lia)). lia.
      * change (py_len (String LF (spec_normalize (String d s''))))
          with (1 + py_len (spec_normalize (String d s''))).
        change (py_len (String CR (String d s''))) with (1 + py_len (String d s'')).
        pose proof (IH (String d s'') ltac:(cbn [String.length]; lia)). lia.
    + cbn [py_len]. pose proof (IH s' ltac:(lia)). lia.
Qed.

End NormalizeMore.

(** X1: normalizing a concatenation normalizes the pieces separately, as
    long as the first piece does not end with CR (a CR that ends [a] might
    pair with an LF that starts [b]). *)
Theorem normalize_content_app : forall a b : string,
  ends_with CR a = false ->
  normalize_content (a ++ b) = (normalize_content a ++ normalize_content b)%string.
Proof.
  intros a b H.
  rewrite !NormalizeFacts.normalize_content_structural.
  rewrite (NormalizeFacts.normalize_is_spec (String.length (a ++ b)) (a ++ b)),
    (NormalizeFacts.normalize_is_spec (String.length a) a),
    (NormalizeFacts.normalize_is_spec (String.length b) b) by lia.
  apply (NormalizeMore.spec_normalize_app (String.length a)); [lia | exact H].
Qed.

(** X2: [normalize_content] leaves a string unchanged exactly when it has
    no CR. *)
Theorem normalize_content_fixed_iff : forall s : string,
  normalize_content s = s <-> has_char CR s = false.
Proof.
  intro s. rewrite NormalizeFacts.normalize_content_structural. split.
  - intro H. rewrite <- H. apply NormalizeFacts.repl_cr_no_cr.
  - intro H. rewrite NormalizeFacts.repl_crlf_id, NormalizeFacts.repl_cr_id by exact H.
    reflexivity.
Qed.

(** X3: [normalize_content] shortens a string by one character (Python
    [len], counted in code points) per CRLF pair and by nothing else. *)
Theorem normalize_content_length : forall s : string,
  py_len (normalize_content s) + crlf_count s = py_len s.
Proof.
  intro s.
  rewrite NormalizeFacts.normalize_content_structural,
    (NormalizeFacts.normalize_is_spec (String.length s)) by lia.
  apply (NormalizeMore.spec_normalize_py_len (String.length s)). lia.
Qed.

Lemma normalize_content_app_witness :
  ends_with CR "a" = false
  /\ normalize_content ("a" ++ String CR (String LF "b"))
     = (normalize_content "a" ++ normalize_content (String CR (String LF "b")))%string.
Proof.
  split; [reflexivity|]. apply normalize_content_app. reflexivity.
Defined.

(** ** The walk filled in: what [files] and [errors] hold *)

Module WalkMore.
Import RelPaths.

Lemma relpath_some : forall cwd p s, is_empty p = false -> exists rp, relpath cwd p s = Some rp.
Proof.
  intros cwd p s H. unfold relpath. rewrite H. cbv zeta.
  match goal with |- exists rp, match ?l with _ => _ end = _ => destruct l end;
  eexists; reflexivity.
Qed.

Lemma get_file_info_exc : forall dec cwd fp bp f ic ms m,
  get_file_info dec cwd fp bp f ic ms = Exc m ->
  f_fault f = Some m \/ relpath cwd fp bp = None.
Proof.
  intros dec cwd fp bp f ic ms m H. unfold get_file_info in H.
  destruct (f_fault f) as [m'|]; [injection H as <-; left; reflexivity|].
  destruct (relpath cwd fp bp) as [rp|]; [|right; reflexivity].
  destruct ic; [|discriminate].
  destruct (f_data f) as [bs|m']; [|discriminate].
  destruct (is_text_file (Readable bs) 8192); discriminate.
Qed.

Section Outcome.

Variable fnmatch : string -> string -> bool.
Variable script_name : string.
Variable decode_utf8 : list byte -> string.
Variable cwd : string.
Variable input_dir : string.
Variable ignore_patterns : list string.
Variable include_content : bool.
Variable max_size : Z.

Local Abbreviation records := (walk_records fnmatch script_name decode_utf8 cwd input_dir
  ignore_patterns include_content max_size).
Local Abbreviation errors_of := (walk_errors fnmatch script_name decode_utf8 cwd input_dir
  ignore_patterns include_content max_size).
Local Abbreviation pwalk := (process_walk fnmatch script_name decode_utf8 cwd input_dir
  ignore_patterns include_content max_size).
Local Abbreviation pfiles := (process_files fnmatch script_name decode_utf8 cwd input_dir
  ignore_patterns include_content max_size).
Local Abbreviation pfile := (process_file fnmatch script_name decode_utf8 cwd input_dir
  ignore_patterns include_content max_size).

Lemma process_file_outcome : forall root f snap snap',
  pfile root f snap = Ok snap' ->
  files snap' = files snap ++ records [(root, [f])]
  /\ errs snap' = errs snap ++ errors_of [(root, [f])]
  /\ file_structure snap' = file_structure snap.
Proof.
  intros root f snap snap' H. unfold walk_records, walk_errors. cbn [flat_map].
  rewrite !app_nil_r. unfold process_file in H. unfold skipped.
  destruct (matches_any fnmatch ignore_patterns (f_name f)) eqn:E1.
  { injection H as <-. cbn [orb]. rewrite !app_nil_r. tauto. }
  destruct ((f_name f =? script_name) || (f_name f =? output_name)) eqn:E2.
  { injection H as <-. cbn [orb]. rewrite E2, !app_nil_r. tauto. }
  cbn [orb]. rewrite E2.
  destruct (get_file_info decode_utf8 cwd (py_join root (f_name f)) input_dir f
              include_content max_size) as [fi|m] eqn:Eg.
  - injection H as <-. unfold errs. cbn [files errors file_structure].
    rewrite app_nil_r. tauto.
  - destruct (relpath cwd (py_join root (f_name f)) input_dir); [|discriminate].
    injection H as <-. unfold errs. cbn [files errors file_structure].
    rewrite app_nil_r. tauto.
Qed.

Lemma process_files_outcome : forall root fs snap snap',
  pfiles root fs snap = Ok snap' ->
  files snap' = files snap ++ records [(root, fs)]
  /\ errs snap' = errs snap ++ errors_of [(root, fs)]
  /\ file_structure snap' = file_structure snap.
Proof.
  intros root fs. induction fs as [|f fs IH]; intros snap snap' H; cbn [process_files] in H.
  - injection H as <-. unfold walk_records, walk_errors. cbn. rewrite !app_nil_r. tauto.
  - destruct (pfile root f snap) as [s1|m] eqn:E1; [|discriminate].
    destruct (process_file_outcome _ _ _ _ E1) as (A1 & B1 & C1).
    destruct (IH _ _ H) as (A2 & B2 & C2).
    unfold walk_records, walk_errors in *. cbn [flat_map] in *. rewrite !app_nil_r in *.
    rewrite A2, B2, C2, A1, B1, C1, <- !app_assoc. tauto.
Qed.

Lemma process_walk_outcome : forall w snap snap',
  pwalk w snap = Ok snap' ->
  files snap' = files snap ++ records w
  /\ errs snap' = errs snap ++ errors_of w
  /\ file_structure snap' = file_structure snap.
Proof.
  intro w. induction w as [|[root fs] w IH]; intros snap snap' H; cbn [process_walk] in H.
  - injection H as <-. rewrite !app_nil_r. tauto.
  - destruct (pfiles root fs snap) as [s1|m] eqn:E1; [|discriminate].
    destruct (process_files_outcome _ _ _ _ E1) as (A1 & B1 & C1).
    destruct (IH _ _ H) as (A2 & B2 & C2).
    unfold walk_records, walk_errors in *. cbn [flat_map] in *. rewrite !app_nil_r in *.
    rewrite A2, B2, C2, A1, B1, C1, <- !app_assoc. tauto.
Qed.


End Outcome.

Lemma os_walk_names : forall keep top e root fs f,
  wf_tree e = true -> In (root, fs) (os_walk keep top e) -> In f fs ->
  is_empty (f_name f) = false.
Proof.
  intros keep top e root fs f Hwf Hw Hf.
  destruct (os_walk_sound _ _ _ _ _ _ Hw Hf) as (ns & _ & Ha).
  pose proof (file_at_valid _ _ _ Ha Hwf) as Hv.
  apply Forall_app in Hv as [_ Hv]. inversion Hv as [|? ? Hx _].
  exact (proj1 (PathFacts.valid_name_parts _ Hx)).
Qed.

End WalkMore.

Module WalkCount.
Import WalkMore.

Lemma walk_counts : forall fn sc dec cwd input_dir pats ic ms w,
  (forall root fs f, In (root, fs) w -> In f fs -> is_empty (f_name f) = false) ->
  List.length (walk_records fn sc dec cwd input_dir pats ic ms w)
  + List.length (walk_errors fn sc dec cwd input_dir pats ic ms w)
  = List.length (flat_map snd (clean fn sc pats w)).
Proof.
  intros fn sc dec cwd input_dir pats ic ms w.
  induction w as [|[root fs] w IH]; intro Hw; [reflexivity|].
  unfold walk_records, walk_errors in *. rewrite clean_cons. cbn [flat_map snd].
  rewrite !length_app.
  assert (Hfs : forall f, In f fs -> is_empty (f_name f) = false)
    by (intros f Hf; exact (Hw root fs f (or_introl eq_refl) Hf)).
  assert (R : List.length (flat_map (fun f =>
      if skipped fn sc pats f then []
      else match get_file_info dec cwd (py_join root (f_name f)) input_dir f ic ms with
           | Ok r => [r] | Exc _ => [] end) fs)
    + List.length (flat_map (fun f =>
      if skipped fn sc pats f then []
      else match get_file_info dec cwd (py_join root (f_name f)) input_dir f ic ms with
           | Ok _ => []
           | Exc e =>
               match relpath cwd (py_join root (f_name f)) input_dir with
               | Some rp => [{| er_path := py_replace "/" "/" rp; er_error := e |}]
               | None => []
               end
           end) fs)
    = List.length (filter (fun f => negb (skipped fn sc pats f)) fs)).
  { clear - Hfs. induction fs as [|f fs IHf]; [reflexivity|].
    cbn [flat_map filter]. rewrite !length_app.
    assert (IH' := IHf (fun g Hg => Hfs g (or_intror Hg))).
    destruct (skipped fn sc pats f); cbn [negb]; [exact IH'|].
    destruct (get_file_info dec cwd (py_join root (f_name f)) input_dir f ic ms).
    - cbn [List.length]. lia.
    - destruct (relpath_some cwd (py_join root (f_name f)) input_dir) as [rp ->];
        [apply PathFacts.py_join_nonempty, Hfs; left; reflexivity|].
      cbn [List.length]. lia. }
  rewrite <- R. rewrite <- (IH (fun r fs' f Hin Hf => Hw r fs' f (or_intror Hin) Hf)). lia.
Qed.

Lemma in_walk_errors : forall fn sc dec cwd input_dir pats ic ms w er,
  In er (walk_errors fn sc dec cwd input_dir pats ic ms w) ->
  exists root fs f rp, In (root, fs) w /\ In f fs /\ skipped fn sc pats f = false
    /\ f_fault f = Some (er_error er)
    /\ relpath cwd (py_join root (f_name f)) input_dir = Some rp
    /\ er_path er = py_replace "/" "/" rp.
Proof.
  intros fn sc dec cwd input_dir pats ic ms w er H.
  unfold walk_errors in H. apply in_flat_map in H as ([root fs] & Hw & H).
  apply in_flat_map in H as (f & Hf & H).
  destruct (skipped fn sc pats f) eqn:Es; [destruct H|].
  destruct (get_file_info dec cwd (py_join root (f_name f)) input_dir f ic ms) as [r|m] eqn:Eg;
    [destruct H|].
  destruct (relpath cwd (py_join root (f_name f)) input_dir) as [rp|] eqn:Er; [|destruct H].
  destruct H as [<-|[]].
  destruct (get_file_info_exc _ _ _ _ _ _ _ _ Eg) as [Ef|Ef]; [|congruence].
  exists root, fs, f, rp. repeat split; assumption.
Qed.

End WalkCount.


(** X6: on a tree whose names are what [os.listdir] returns, every walked
    file that is not skipped gives exactly one entry: the lengths of
    ["files"] and ["errors"] add up to the number of such files. *)
Theorem generate_snapshot_accounts_every_file :
  forall fnmatch script_name decode cwd input_dir e ignore_patterns
         include_content max_size include_structure snap,
  wf_tree e = true ->
  generate_snapshot fnmatch script_name decode cwd input_dir (Some e) ignore_patterns
    include_content max_size include_structure = Ok snap ->
  List.length (files snap)
  + List.length (match errors snap with Some l => l | None => [] end)
  = List.length (flat_map snd (clean fnmatch script_name ignore_patterns
      (os_walk (fun d => negb (matches_any fnmatch ignore_patterns d)) input_dir e))).
Proof.
  intros fn sc dec cwd input_dir e pats ic ms is snap Hwf H.
  unfold generate_snapshot in H.
  destruct (WalkMore.process_walk_outcome fn sc dec cwd input_dir pats ic ms _ _ _ H)
    as (A & B & _).
  unfold errs in B. rewrite A, B. cbn [files errors app].
  apply WalkCount.walk_counts. intros root fs f Hw Hf.
  exact (WalkMore.os_walk_names _ _ _ _ _ _ Hwf Hw Hf).
Qed.

(** X7: an entry of ["errors"] only comes from an exception raised outside
    the guarded read of [get_file_info] (an [OSError] of [open] or [read]
    becomes the record's ["error"] field instead); its [path] is, as for
    records, the names from the root to the file joined by [/]. *)
Theorem generate_snapshot_errors_from_faults :
  forall fnmatch script_name decode cwd input_dir e ignore_patterns
         include_content max_size include_structure snap l er,
  starts_with SLASH cwd = true ->
  wf_tree e = true ->
  generate_snapshot fnmatch script_name decode cwd input_dir (Some e) ignore_patterns
    include_content max_size include_structure = Ok snap ->
  errors snap = Some l -> In er l ->
  exists ns f, file_at e ns f
    /\ skipped fnmatch script_name ignore_patterns f = false
    /\ f_fault f = Some (er_error er)
    /\ er_path er = String.concat "/" (ns ++ [f_name f]).
Proof.
  intros fn sc dec cwd input_dir e pats ic ms is snap l er Hc Hwf H El Hin.
  unfold generate_snapshot in H.
  destruct (WalkMore.process_walk_outcome fn sc dec cwd input_dir pats ic ms _ _ _ H)
    as (_ & B & _).
  unfold errs in B. rewrite El in B. cbn [errors app] in B. rewrite B in Hin.
  destruct (WalkCount.in_walk_errors _ _ _ _ _ _ _ _ _ _ Hin)
    as (root & fs & f & rp & Hw & Hf & Hs & Ef & Er & Ep).
  destruct (RelPaths.os_walk_sound _ _ _ _ _ _ Hw Hf) as (ns & -> & Ha).
  pose proof (RelPaths.file_at_valid _ _ _ Ha Hwf) as Hv.
  assert (Hj : py_join (py_join_many input_dir ns) (f_name f)
               = py_join_many input_dir (ns ++ [f_name f])).
  { unfold py_join_many. rewrite fold_left_app. reflexivity. }
  rewrite Hj, PathFacts.relpath_join_many in Er;
    [| exact Hc | apply RelPaths.snoc_not_nil | exact Hv].
  injection Er as <-. rewrite RelPaths.py_replace_slash in Ep.
  exists ns, f. repeat split; assumption.
Qed.

(** ** The structure renderer *)

Module StructureMore.

Lemma add_to_structure_length : forall e p l,
  List.length (add_to_structure e p l false) = node_count e.
Proof.
  induction e as [f|n cs IH] using entry_ind'; intros p l; [reflexivity|].
  cbn [add_to_structure node_count]. cbn zeta.
  generalize ((p ++ (if l then "    " else "│   "))%string) as np. intro np.
  cbn [app List.length]. f_equal.
  induction IH as [|c cs Hc Hcs IHcs]; [reflexivity|].
  rewrite length_app, Hc. cbn [fold_right]. rewrite IHcs. reflexivity.
Qed.

End StructureMore.

(** X9: [add_to_structure] appends one line for every entry of the listed
    tree except the root. *)
Theorem structure_one_line_per_entry :
  forall fnmatch script_name ignore_patterns e,
  List.length (add_to_structure (listing fnmatch script_name ignore_patterns e) "" false true)
  = node_count (listing fnmatch script_name ignore_patterns e) - 1.
Proof.
  intros fn sc pats e. destruct (listing fn sc pats e) as [f|n cs]; [reflexivity|].
  cbn [add_to_structure node_count]. cbn zeta. cbn [app].
  rewrite Nat.sub_succ, Nat.sub_0_r.
  induction cs as [|c cs IH]; [reflexivity|].
  rewrite length_app, StructureMore.add_to_structure_length. cbn [fold_right].
  rewrite IH. reflexivity.
Qed.

(** ** [main] *)

Module MainMore.








End MainMore.


(** ** Runs of the further properties on sample inputs *)


Lemma generate_snapshot_accounts_every_file_witness :
  let snap := {| file_structure := None;
                 files := [{| fi_path := "a.txt"; fi_content := Some "hi"; fi_error := None |};
                           {| fi_path := "lib/gone"; fi_content := None;
                              fi_error := Some "Permission denied" |}];
                 errors := Some [{| er_path := "lib/bad"; er_error := "MemoryError" |}] |} in
  generate_snapshot Glob.fnmatch "snapshot.py" Glob.ascii_decode "/home/u" "proj"
    (Some Samples.faulty) Samples.default_ignore true 1048576 false = Ok snap
  /\ 2 + 1 = List.length (flat_map snd (clean Glob.fnmatch "snapshot.py" Samples.default_ignore
      (os_walk (fun d => negb (matches_any Glob.fnmatch Samples.default_ignore d))
         "proj" Samples.faulty))).
Proof.
  intro snap.
  assert (H : generate_snapshot Glob.fnmatch "snapshot.py" Glob.ascii_decode "/home/u" "proj"
                (Some Samples.faulty) Samples.default_ignore true 1048576 false = Ok snap)
    by (vm_compute; reflexivity).
  split; [exact H|].
  exact (generate_snapshot_accounts_every_file Glob.fnmatch "snapshot.py" Glob.ascii_decode
           "/home/u" "proj" Samples.faulty Samples.default_ignore true 1048576 false snap
           ltac:(vm_compute; reflexivity) H).
Defined.

Lemma generate_snapshot_errors_from_faults_witness :
  exists ns f, file_at Samples.faulty ns f
    /\ skipped Glob.fnmatch "snapshot.py" Samples.default_ignore f = false
    /\ f_fault f = Some "MemoryError"
    /\ "lib/bad" = String.concat "/" (ns ++ [f_name f]).
Proof.
  exact (generate_snapshot_errors_from_faults Glob.fnmatch "snapshot.py" Glob.ascii_decode
    "/home/u" "proj" Samples.faulty Samples.default_ignore true 1048576 false
    {| file_structure := None;
       files := [{| fi_path := "a.txt"; fi_content := Some "hi"; fi_error := None |};
                 {| fi_path := "lib/gone"; fi_content := None;
                    fi_error := Some "Permission denied" |}];
       errors := Some [{| er_path := "lib/bad"; er_error := "MemoryError" |}] |}
    [{| er_path := "lib/bad"; er_error := "MemoryError" |}]
    {| er_path := "lib/bad"; er_error := "MemoryError" |}
    eq_refl ltac:(vm_compute; reflexivity) ltac:(vm_compute; reflexivity) eq_refl
    ltac:(left; reflexivity)).
Defined.

